(** * Glances plugins: network interfaces and NVMe temperature

    A shallow embedding of
      - glances/plugins/network/__init__.py        (module [Network])
      - glances/plugins/sensors/sensor/glances_nvme.py (module [NVMe])
    together with the rate engine and the threshold classifier of the
    specification (module [Engine]), whose code lives in the plugin base
    class and is not part of the sources at hand.

    Python values are represented by [pyval]; a call that can raise is a
    computation in the error monad [result].  Python [float] values round
    and are not part of the value universe: every number is a Python [int]
    (arbitrary precision, hence [Z]). *)

From Stdlib Require Import ZArith QArith Lqa Ascii String List.
From stdpp Require Import gmap strings list fin_maps pretty.

Local Open Scope string_scope.
Local Open Scope Z_scope.
Local Open Scope list_scope.

(** ** Exceptions and the error monad *)

Module Py.

Inductive exn : Set :=
  | KeyError
  | IndexError
  | ValueError
  | TypeError
  | AttributeError
  | UnboundLocalError
  | OSError
  | FileNotFoundError
  | CalledProcessError.

Inductive result (A : Type) : Type :=
  | Ok (a : A)
  | Raise (e : exn).
Arguments Ok {A} a.
Arguments Raise {A} e.

#[global] Instance result_ret : MRet result := fun A a => Ok a.

#[global] Instance result_bind : MBind result := fun A B k m =>
  match m with
  | Ok a => k a
  | Raise e => Raise e
  end.

Definition is_ok {A : Type} (m : result A) : Prop :=
  match m with
  | Ok _ => True
  | Raise _ => False
  end.

(** ** Values *)

Inductive pyval : Set :=
  | VNone
  | VBool (b : bool)
  | VInt (n : Z)
  | VStr (s : string).

#[global] Instance pyval_eq_dec : EqDecision pyval.
Proof. solve_decision. Defined.

(** Truth value testing ([bool(v)]). *)
Definition truthy (v : pyval) : bool :=
  match v with
  | VNone => false
  | VBool b => b
  | VInt n => negb (n =? 0)
  | VStr s => negb (String.eqb s "")
  end.

(** [v != 0]: [False] and [0] are equal to [0], nothing else of the
    universe is. *)
Definition ne_zero (v : pyval) : bool :=
  match v with
  | VBool b => b
  | VInt n => negb (n =? 0)
  | VNone | VStr _ => true
  end.

Definition Z_of_bool (b : bool) : Z := if b then 1 else 0.

(** [s * n] for a string: [n] copies, none when [n <= 0]. *)
Fixpoint str_repeat (s : string) (n : nat) : string :=
  match n with
  | O => ""
  | S k => s +:+ str_repeat s k
  end.

(** [a + b]. *)
Definition add (a b : pyval) : result pyval :=
  match a, b with
  | VInt x, VInt y => Ok (VInt (x + y))
  | VInt x, VBool y => Ok (VInt (x + Z_of_bool y))
  | VBool x, VInt y => Ok (VInt (Z_of_bool x + y))
  | VBool x, VBool y => Ok (VInt (Z_of_bool x + Z_of_bool y))
  | VStr x, VStr y => Ok (VStr (x +:+ y))
  | _, _ => Raise TypeError
  end.

(** [a * k] for an [int] literal [k]. *)
Definition mul_int (a : pyval) (k : Z) : result pyval :=
  match a with
  | VInt x => Ok (VInt (x * k))
  | VBool x => Ok (VInt (Z_of_bool x * k))
  | VStr s => Ok (VStr (str_repeat s (Z.to_nat k)))
  | VNone => Raise TypeError
  end.

(** [str(v)], as used by f-strings and [str.format]. *)
Definition str (v : pyval) : string :=
  match v with
  | VNone => "None"
  | VBool true => "True"
  | VBool false => "False"
  | VInt n => pretty n
  | VStr s => s
  end.

(** [d[k]] on a dict. *)
Definition getitem {V : Type} (d : gmap string V) (k : string) : result V :=
  match d !! k with
  | Some v => Ok v
  | None => Raise KeyError
  end.

(** [l[i]] on a list, negative indices counting from the end. *)
Definition index {A : Type} (l : list A) (i : Z) : result A :=
  let n := Z.of_nat (length l) in
  let j := if i <? 0 then i + n else i in
  if (j <? 0) || (n <=? j) then Raise IndexError
  else match l !! Z.to_nat j with
       | Some x => Ok x
       | None => Raise IndexError
       end.

(** ** Text

    A character is a code point below 256 ([ascii] read as Latin-1). *)

Definition code (c : ascii) : Z := Z.of_nat (nat_of_ascii c).

(** [str.isspace] on one character: the separators of [str.split()] and
    the characters removed by [str.strip()]. *)
Definition is_space (c : ascii) : bool :=
  let n := code c in
  ((9 <=? n) && (n <=? 13)) || ((28 <=? n) && (n <=? 32))
  || (n =? 133) || (n =? 160).

(** The line boundaries of [str.splitlines] other than the pair CR LF. *)
Definition is_linebreak (c : ascii) : bool :=
  let n := code c in
  ((10 <=? n) && (n <=? 13)) || ((28 <=? n) && (n <=? 30)) || (n =? 133).

Definition flush (cur : list ascii) : string := string_of_list_ascii (rev cur).

(** [s.splitlines()]; [cur] is the line being read, last character first. *)
Fixpoint splitlines_from (cur : list ascii) (s : string) : list string :=
  match s with
  | EmptyString =>
      match cur with
      | [] => []
      | _ => [flush cur]
      end
  | String c rest =>
      if (code c =? 13) then
        match rest with
        | String c' rest' =>
            if (code c' =? 10) then flush cur :: splitlines_from [] rest'
            else flush cur :: splitlines_from [] rest
        | EmptyString => flush cur :: splitlines_from [] rest
        end
      else if is_linebreak c then flush cur :: splitlines_from [] rest
      else splitlines_from (c :: cur) rest
  end.

Definition splitlines (s : string) : list string := splitlines_from [] s.

(** [s.split()]: maximal runs of non-space characters. *)
Fixpoint split_from (cur : list ascii) (s : string) : list string :=
  match s with
  | EmptyString =>
      match cur with
      | [] => []
      | _ => [flush cur]
      end
  | String c rest =>
      if is_space c then
        match cur with
        | [] => split_from [] rest
        | _ => flush cur :: split_from [] rest
        end
      else split_from (c :: cur) rest
  end.

Definition split (s : string) : list string := split_from [] s.

(** [s.split(sep)[0]] for a one-character separator: the text before the
    first [sep], the whole of [s] when there is none. *)
Fixpoint before (sep : ascii) (s : string) : string :=
  match s with
  | EmptyString => EmptyString
  | String c rest => if Ascii.eqb c sep then EmptyString else String c (before sep rest)
  end.

(** [needle in hay]. *)
Fixpoint contains (needle hay : string) : bool :=
  String.prefix needle hay ||
  match hay with
  | EmptyString => false
  | String _ rest => contains needle rest
  end.

(** [s.replace(c, '')] for a one-character [c]. *)
Fixpoint remove_char (c : ascii) (s : string) : string :=
  match s with
  | EmptyString => EmptyString
  | String a rest =>
      if Ascii.eqb a c then remove_char c rest else String a (remove_char c rest)
  end.

Fixpoint lstrip (s : string) : string :=
  match s with
  | EmptyString => EmptyString
  | String c rest => if is_space c then lstrip rest else s
  end.

Definition rstrip (s : string) : string :=
  string_of_list_ascii (rev (list_ascii_of_string
    (lstrip (string_of_list_ascii (rev (list_ascii_of_string s)))))).

Definition strip (s : string) : string := rstrip (lstrip s).

Definition digit_val (c : ascii) : option Z :=
  let n := code c in
  if (48 <=? n) && (n <=? 57) then Some (n - 48) else None.

(** The digits of a base-10 literal: at least one digit, and single
    underscores between digits only. [prev] tells that the previous
    character was a digit. *)
Fixpoint int_digits (acc : Z) (prev : bool) (s : string) : option Z :=
  match s with
  | EmptyString => if prev then Some acc else None
  | String c rest =>
      match digit_val c with
      | Some d => int_digits (acc * 10 + d) true rest
      | None => if Ascii.eqb c "_" && prev then int_digits acc false rest else None
      end
  end.

(** [int(s)] for a string: surrounding white space, an optional sign, the
    digits. (The limit CPython puts on the number of digits is left out.) *)
Definition int_of_str (s : string) : result Z :=
  let t := strip s in
  let '(neg, body) :=
    match t with
    | String c rest =>
        if Ascii.eqb c "-" then (true, rest)
        else if Ascii.eqb c "+" then (false, rest)
        else (false, t)
    | EmptyString => (false, t)
    end in
  match int_digits 0 false body with
  | Some n => Ok (if neg then - n else n)
  | None => Raise ValueError
  end.

(** [int(v)]. *)
Definition int (v : pyval) : result Z :=
  match v with
  | VInt n => Ok n
  | VBool b => Ok (Z_of_bool b)
  | VStr s => int_of_str s
  | VNone => Raise TypeError
  end.

(** [len(v)]. *)
Definition len (v : pyval) : result Z :=
  match v with
  | VStr s => Ok (Z.of_nat (String.length s))
  | _ => Raise TypeError
  end.

(** The receiver of a [str] method: anything else has no such attribute. *)
Definition as_str (v : pyval) : result string :=
  match v with
  | VStr s => Ok s
  | _ => Raise AttributeError
  end.

Fixpoint str_drop (n : nat) (s : string) : string :=
  match n, s with
  | O, _ => s
  | S k, EmptyString => EmptyString
  | S k, String _ rest => str_drop k rest
  end.

(** [s[start:]]: a negative [start] counts from the end, and the bounds
    are clipped to the string. *)
Definition slice_from (s : string) (start : Z) : string :=
  let n := Z.of_nat (String.length s) in
  let k := if start <? 0 then Z.max 0 (start + n) else Z.min start n in
  str_drop (Z.to_nat k) s.

Definition spaces (n : Z) : string := str_repeat " " (Z.to_nat n).

(** ['{:{width}}'.format(s, width=w)] for a string [s]: left-aligned,
    padded with spaces. A negative [w] gives the format specification a
    sign, which a string refuses. (For [w = 0] the specification is ['0'],
    accepted from Python 3.10 on.) *)
Definition format_left (s : string) (w : Z) : result string :=
  if w <? 0 then Raise ValueError
  else Ok (s +:+ spaces (w - Z.of_nat (String.length s))).

(** ['{:>w}'.format(s)] for a literal width [w]. *)
Definition format_right (s : string) (w : Z) : string :=
  spaces (w - Z.of_nat (String.length s)) +:+ s.

(** [not max_width] for a width that is [None] or an [int]. *)
Definition falsy (max_width : option Z) : bool :=
  match max_width with
  | None => true
  | Some n => n =? 0
  end.

(** [except OSError] also catches its subclasses. *)
Definition is_OSError (e : exn) : bool :=
  match e with
  | OSError | FileNotFoundError => true
  | _ => false
  end.

(** ** Cells of the curses interface

    [curse_add_line] and [curse_new_line] belong to the plugin base class,
    which is not part of the sources at hand: a cell records the arguments
    of the call that made it, [None] standing for an argument that the
    call leaves out. *)

Inductive cell : Type :=
  | curse_new_line
  | curse_add_line (msg : string) (decoration : option pyval)
                   (width : option Z) (align : option string).

End Py.
Import Py.

(** * The NVMe temperature plugin (glances_nvme.py) *)

Module NVMe.

(** ** GlancesGrabNVMe *)

(** One line of [parse_nvme_output]'s loop: the field the line sets, if
    any. *)
Definition parse_line (line : string) : result (option (string * Z)) :=
  if contains "Temperature:" line then
    tok ← index (split line) (-2);
    n ← int_of_str tok;
    Ok (Some ("temperature", n))
  else if contains "Power Cycles:" line then
    tok ← index (split line) (-1);
    n ← int_of_str tok;
    Ok (Some ("power_cycles", n))
  else if contains "Percentage Used:" line then
    tok ← index (split line) (-1);
    n ← int_of_str (remove_char "%" tok);
    Ok (Some ("percentage_used", n))
  else Ok None.

Fixpoint parse_lines (nvme_data : gmap string Z) (lines : list string)
  : result (gmap string Z) :=
  match lines with
  | [] => Ok nvme_data
  | line :: rest =>
      f ← parse_line line;
      match f with
      | Some (k, n) => parse_lines (<[k := n]> nvme_data) rest
      | None => parse_lines nvme_data rest
      end
  end.

Definition parse_nvme_output (output : string) : result (gmap string Z) :=
  parse_lines ∅ (splitlines output).

(** [get]: [run] is what [subprocess.check_output] does, the text the tool
    wrote or the exception raised. Only [CalledProcessError] is handled
    (the message printed there is not modelled). *)
Definition get (run : result string) : result (gmap string Z) :=
  match run with
  | Ok output => parse_nvme_output output
  | Raise CalledProcessError => Ok ∅
  | Raise e => Raise e
  end.

(** ** PluginModel *)

Record plugin : Type := {
  stats : list (gmap string pyval);
  is_disabled : bool;
}.

(** [stats_init_value=[]] is what [get_init_value] starts from. *)
Definition get_init_value : list (gmap string pyval) := [].

Definition nvme_stat (temperature : Z) : gmap string pyval :=
  <["label" := VStr "NVMe Temp"]>
    (<["value" := VInt temperature]> (<["unit" := VStr "C"]> ∅)).

(** [update]: the new state of the plugin, whose [stats] are returned. *)
Definition update (self : plugin) (run : result string) : result plugin :=
  nvme_data ← get run;
  new ←
    (if decide (nvme_data = ∅) then Ok get_init_value
     else
       t ← getitem nvme_data "temperature";
       Ok (get_init_value ++ [nvme_stat t]));
  Ok {| stats := new; is_disabled := is_disabled self |}.

Section curses.

(** [curse_add_line] called with the keyword [width] or [align]. No other
    call of the sources passes either of them, and the method belongs to
    the base class, which is not part of the sources at hand: whether it
    takes these keywords, and what it makes of them, is not known, so that
    such a call is a parameter. It returns the cell, or raises (a
    [TypeError] for a method that knows no such keyword). *)
Variable curse_add_line_kw : string -> option Z -> option string -> result cell.

(** The three cells of one row. [label_max_width] is [None] as long as the
    local variable has not been assigned; it is read as an argument of the
    call, before the call is made. *)
Definition row (label_max_width : option Z) (stat : gmap string pyval)
  : result (list cell) :=
  label ← getitem stat "label";
  w ← (match label_max_width with
       | Some w => Ok w
       | None => Raise UnboundLocalError
       end);
  label_cell ← curse_add_line_kw (str label) (Some w) None;
  value ← getitem stat "value";
  unit ← getitem stat "unit";
  value_cell ← curse_add_line_kw (str value +:+ " " +:+ str unit) None (Some "right");
  Ok [curse_new_line; label_cell; value_cell].

Fixpoint rows (label_max_width : option Z) (l : list (gmap string pyval))
  : result (list cell) :=
  match l with
  | [] => Ok []
  | stat :: rest =>
      cs ← row label_max_width stat;
      more ← rows label_max_width rest;
      Ok (cs ++ more)
  end.

Definition msg_curse (self : plugin) (max_width : option Z) : result (list cell) :=
  match stats self with
  | [] => Ok []
  | _ :: _ =>
      if is_disabled self then Ok []
      else
        let label_max_width :=
          match max_width with
          | Some n => if n =? 0 then None else Some (n - 14)
          | None => None
          end in
        body ← rows label_max_width (stats self);
        Ok (curse_add_line "NVMe Stats" (Some (VStr "TITLE")) None None :: body)
  end.

End curses.

(** The line has none of the three labels that [parse_nvme_output] looks
    for. *)
Definition unlabelled (line : string) : bool :=
  negb (contains "Temperature:" line)
  && negb (contains "Power Cycles:" line)
  && negb (contains "Percentage Used:" line).

End NVMe.

(** * The stand-alone temperature check (Test.py) *)

Module Script.

(** The loop of [check_nvme_temperature], which returns at the first line
    that bears the label; without such a line the function falls off its
    end and returns [None]. *)
Fixpoint check_lines (lines : list string) : result (option Z) :=
  match lines with
  | [] => Ok None
  | line :: rest =>
      if contains "Temperature:" line then
        tok ← index (split line) (-2);
        temperature ← int_of_str tok;
        Ok (Some temperature)
      else check_lines rest
  end.

(** [check_nvme_temperature]: [run] is what [subprocess.check_output]
    does (the two messages printed are not modelled). The endless loop of
    the script around it is left out. *)
Definition check_nvme_temperature (run : result string) : result (option Z) :=
  match run with
  | Ok output => check_lines (splitlines output)
  | Raise CalledProcessError => Ok None
  | Raise e => Raise e
  end.

End Script.


(** * The network plugin (network/__init__.py) *)

Module Network.

Abbreviation stat := (gmap string pyval).
Abbreviation views_t := (gmap string (gmap string (gmap string pyval))).

Record field_description : Type := {
  description : string;
  rate : option bool;
  unit : option string;
}.

Definition fields_description : list (string * field_description) :=
  [ ("interface_name",
     {| description := "Interface name."; rate := None; unit := None |});
    ("alias",
     {| description := "Interface alias name (optional)."; rate := None; unit := None |});
    ("bytes_recv",
     {| description := "Number of bytes received.";
        rate := Some true; unit := Some "byte" |});
    ("bytes_sent",
     {| description := "Number of bytes sent.";
        rate := Some true; unit := Some "byte" |});
    ("bytes_all",
     {| description := "Number of bytes received and sent.";
        rate := Some true; unit := Some "byte" |});
    ("speed",
     {| description :=
          "Maximum interface speed (in bit per second). Can return 0 on some operating systems.";
        rate := None; unit := Some "bitpersecond" |});
    ("is_up",
     {| description := "Is the interface up?"; rate := None; unit := Some "bool" |}) ].

(** The fields for which a rate is computed. *)
Definition rate_fields : list string :=
  (fst <$> filter (fun p => bool_decide (rate (snd p) = Some true)) fields_description).

(** The plugin's own state. *)
Record plugin : Type := {
  stats : list stat;
  input_method : string;
  is_disabled : bool;
  hide_zero : bool;
  hide_no_up : bool;
  hide_no_ip : bool;
}.

Definition hide_zero_fields : list string :=
  ["bytes_recv_rate_per_sec"; "bytes_sent_rate_per_sec"].

Definition get_key : string := "interface_name".

(** Command-line options read by [msg_curse]. *)
Record args_t : Type := {
  network_cumul : bool;
  network_sum : bool;
  byte : bool;
}.

(** What psutil returns: a named tuple is read as the mapping of its
    fields; [net_io_counters] keeps the order of its items. *)
Record psutil_data : Type := {
  net_io_counters : list (string * stat);
  net_if_stats : gmap string stat;
}.

Definition has (i : stat) (k : string) : bool := bool_decide (is_Some (i !! k)).

Definition set_stats (self : plugin) (l : list stat) : plugin :=
  {| stats := l;
     input_method := input_method self;
     is_disabled := is_disabled self;
     hide_zero := hide_zero self;
     hide_no_up := hide_no_up self;
     hide_no_ip := hide_no_ip self |}.

Definition set_hide_no_up (self : plugin) (b : bool) : plugin :=
  {| stats := stats self;
     input_method := input_method self;
     is_disabled := is_disabled self;
     hide_zero := hide_zero self;
     hide_no_up := b;
     hide_no_ip := hide_no_ip self |}.

(** [stats_init_value=[]] is what [get_init_value] starts from. *)
Definition get_init_value : list stat := [].


Section plugin.

(** Methods of the base class and functions of other libraries, none of
    them part of the sources at hand. *)
Variable is_display : string -> bool.
Variable filter_stats : stat -> stat.
Variable get_mac_address : string -> pyval.
Variable has_alias : string -> pyval.
(** The decorator [_manage_rate]: from the function that it wraps, the
    method that is called. *)
Variable manage_rate : (plugin -> result (list stat)) -> plugin -> result (list stat).
(** [get_alert current maximum header]; [maximum] is [None] when the call
    does not pass it. *)
Variable get_alert : Z -> option pyval -> string -> string.
(** [get_views item key option]. *)
Variable get_views : pyval -> string -> string -> result pyval.
Variable sorted_stats : list stat -> list stat.
Variable auto_unit : Z -> string.

(** ** update_local *)

(** [stat = filter_stats(interface_stat)] followed by
    [stat.update(filter_stats(net_status[interface_name]))]: the fields of
    the second replace those of the first. *)
Definition filtered (counters status : stat) : stat :=
  filter_stats status ∪ filter_stats counters.

(** The body of the loop for an interface that is kept. *)
Definition interface_stat (interface_name : string) (counters status : stat)
  : result stat :=
  let stat := filtered counters status in
  let stat := <["key" := VStr get_key]> stat in
  let stat := <["interface_name" := VStr interface_name]> stat in
  let mac_address := get_mac_address interface_name in
  let stat :=
    <["mac_address" := if truthy mac_address then mac_address else VStr "Unknown"]> stat in
  let stat := <["alias" := has_alias interface_name]> stat in
  sent ← getitem stat "bytes_sent";
  recv ← getitem stat "bytes_recv";
  all ← add sent recv;
  let stat := <["bytes_all" := all]> stat in
  speed ← getitem stat "speed";
  bps ← mul_int speed 1048576;
  Ok (<["speed" := bps]> stat).

Fixpoint update_local_loop (net_status : gmap string stat) (stats : list stat)
    (items : list (string * stat)) : result (list stat) :=
  match items with
  | [] => Ok stats
  | (interface_name, counters) :: rest =>
      if negb (is_display interface_name) then update_local_loop net_status stats rest
      else
        match net_status !! interface_name with
        | None => update_local_loop net_status stats rest
        | Some status =>
            stat ← interface_stat interface_name counters status;
            update_local_loop net_status (stats ++ [stat]) rest
        end
  end.

(** The interfaces that the loop keeps: those to display that have a
    status, in the order of the counters. *)
Fixpoint kept (net_status : gmap string stat) (items : list (string * stat))
  : list string :=
  match items with
  | [] => []
  | (interface_name, _) :: rest =>
      if is_display interface_name
         && bool_decide (is_Some (net_status !! interface_name))
      then interface_name :: kept net_status rest
      else kept net_status rest
  end.

(** The function [update_local] as it is written, which the decorator
    wraps. [ps] is the outcome of the three calls to psutil. *)
Definition update_local_body (self : plugin) (ps : result psutil_data)
  : result (list stat) :=
  match ps with
  | Ok d => update_local_loop (net_if_stats d) get_init_value (net_io_counters d)
  | Raise e => if is_OSError e then Ok (stats self) else Raise e
  end.

(** [update_local], the method that is called: the function above under
    the [_manage_rate] decorator. *)
Definition update_local (self : plugin) (ps : result psutil_data) : result (list stat) :=
  manage_rate (fun self => update_local_body self ps) self.

(** [update]: the plugin with its new [stats], which are also what the
    method returns. *)
Definition update (self : plugin) (ps : result psutil_data) : result plugin :=
  stats ← (if String.eqb (input_method self) "local" then update_local self ps
           else Ok get_init_value);
  Ok (set_stats self stats).


(** ** update_views *)

(** [views[item][key]['decoration'] = value]. *)
Definition set_decoration (views : views_t) (item key : string) (value : string)
  : result views_t :=
  item_views ← getitem views item;
  key_views ← getitem item_views key;
  Ok (<[item := <[key := <["decoration" := VStr value]> key_views]> item_views]> views).

(** [int(i[field] * 8)]. *)
Definition bps (i : stat) (field : string) : result Z :=
  r ← getitem i field;
  b ← mul_int r 8;
  int b.

(** The alert of one direction: the thresholds configured under [header]
    for the interface, and if there are none, the speed of the link as
    the maximum, under the header [dir] (["rx"] or ["tx"]). *)
Definition alert (i : stat) (current : Z) (header dir : string) : string :=
  let a := get_alert current None header in
  match i !! "speed" with
  | Some speed =>
      if String.eqb a "DEFAULT" && ne_zero speed
      then get_alert current (Some speed) dir
      else a
  | None => a
  end.

(** The body of the loop; [views] is the mapping as the base class's
    [update_views] and the earlier iterations left it. *)
Definition update_views_item (views : views_t) (i : stat) : result views_t :=
  if negb (has i "bytes_recv_rate_per_sec") || negb (has i "bytes_sent_rate_per_sec")
  then Ok views
  else
    bps_rx ← bps i "bytes_recv_rate_per_sec";
    bps_tx ← bps i "bytes_sent_rate_per_sec";
    name ← getitem i "interface_name";
    name ← as_str name;
    let if_real_name := before ":" name in
    let alert_rx := alert i bps_rx (if_real_name +:+ "_rx") "rx" in
    let alert_tx := alert i bps_tx (if_real_name +:+ "_tx") "tx" in
    views ← set_decoration views name "bytes_recv" alert_rx;
    set_decoration views name "bytes_sent" alert_tx.

Fixpoint update_views_loop (views : views_t) (raw : list stat) : result views_t :=
  match raw with
  | [] => Ok views
  | i :: rest =>
      views ← update_views_item views i;
      update_views_loop views rest
  end.

(** [update_views]: [views] is what the base class's method computed,
    [get_raw()] gives the plugin's [stats]. *)
Definition update_views (self : plugin) (views : views_t) : result views_t :=
  update_views_loop views (stats self).

(** The rates of both directions are there: the interface is not skipped. *)
Definition measured (i : stat) : bool :=
  has i "bytes_recv_rate_per_sec" && has i "bytes_sent_rate_per_sec".

(** [views[item][key]['decoration']], if it is there. *)
Definition decoration (views : views_t) (item key : string) : option pyval :=
  item_views ← views !! item;
  key_views ← item_views !! key;
  key_views !! "decoration".

(** [views[item][key][opt]], if it is there. *)
Definition view (views : views_t) (item key opt : string) : option pyval :=
  item_views ← views !! item;
  key_views ← item_views !! key;
  key_views !! opt.

(** The base class has made the views of both byte fields of [item]. *)
Definition has_cells (views : views_t) (item : string) : Prop :=
  ∃ item_views,
    views !! item = Some item_views
    ∧ is_Some (item_views !! "bytes_recv") ∧ is_Some (item_views !! "bytes_sent").

(** A stat on which the body of the loop of [update_views] runs through:
    if its rates are there, they are numbers, its interface name is a
    string, and the views of that interface exist. *)
Definition ready (views : views_t) (i : stat) : Prop :=
  measured i = true →
  ∃ name,
    i !! "interface_name" = Some (VStr name)
    ∧ is_ok (bps i "bytes_recv_rate_per_sec")
    ∧ is_ok (bps i "bytes_sent_rate_per_sec")
    ∧ has_cells views name.

(** The interface names of the stats, in order. *)
Definition interface_names (raw : list stat) : list (option pyval) :=
  (fun i : stat => i !! "interface_name") <$> raw.

(** ** msg_curse *)

(** ['is_up' in i and not i['is_up']]. *)
Definition is_down (i : stat) : bool :=
  match i !! "is_up" with
  | Some up => negb (truthy up)
  | None => false
  end.

(** [all(get_views(item=i[get_key()], key=f, option='hidden') for f in fields)],
    which stops at the first field that is not hidden. *)
Fixpoint all_hidden (i : stat) (fields : list string) : result bool :=
  match fields with
  | [] => Ok true
  | f :: rest =>
      item ← getitem i get_key;
      hidden ← get_views item f "hidden";
      if truthy hidden then all_hidden i rest else Ok false
  end.

(** The name to display: the alias, or the interface name up to a colon. *)
Definition if_name (i : stat) : result pyval :=
  alias ← getitem i "alias";
  match alias with
  | VNone =>
      name ← getitem i "interface_name";
      name ← as_str name;
      Ok (VStr (before ":" name))
  | _ => Ok alias
  end.

(** [if len(if_name) > name_max_width: if_name = '_' + if_name[-name_max_width + 1:]] *)
Definition cut (if_name : pyval) (name_max_width : Z) : result string :=
  n ← len if_name;
  match if_name with
  | VStr s =>
      if name_max_width <? n then Ok ("_" +:+ slice_from s (- name_max_width + 1))
      else Ok s
  | _ => Raise TypeError
  end.

(** The cell of the MAC address, ["Unknown"] when the stat has none. *)
Definition mac_cell (i : stat) : cell :=
  let mac_address := default (VStr "Unknown") (i !! "mac_address") in
  curse_add_line (" MAC: " +:+ str mac_address) None None None.

(** The cells of the name and of the MAC address. *)
Definition label_cells (name_max_width : Z) (i : stat) : result (list cell) :=
  name ← if_name i;
  name ← cut name name_max_width;
  msg ← format_left name name_max_width;
  Ok [ curse_new_line; curse_add_line msg None None None; mac_cell i ].

(** [auto_unit(int(i[field] * to_bit)) + unit] *)
Definition amount (args : args_t) (i : stat) (field : string) : result string :=
  let to_bit := if byte args then 1 else 8 in
  let unit := if byte args then "" else "b" in
  v ← getitem i field;
  v ← mul_int v to_bit;
  n ← int v;
  Ok (auto_unit n +:+ unit).

(** [rx], [tx] and [ax], or [None] where the loop goes on to the next
    interface. *)
Definition amounts (args : args_t) (i : stat) : result (option (string * string * string)) :=
  if network_cumul args && has i "bytes_recv" then
    rx ← amount args i "bytes_recv";
    tx ← amount args i "bytes_sent";
    ax ← amount args i "bytes_all";
    Ok (Some (rx, tx, ax))
  else if has i "bytes_recv_rate_per_sec" then
    rx ← amount args i "bytes_recv_rate_per_sec";
    tx ← amount args i "bytes_sent_rate_per_sec";
    ax ← amount args i "bytes_all_rate_per_sec";
    Ok (Some (rx, tx, ax))
  else Ok None.

Definition value_cells (args : args_t) (i : stat) : result (list cell) :=
  a ← amounts args i;
  match a with
  | None => Ok []
  | Some (rx, tx, ax) =>
      if network_sum args then Ok [curse_add_line (format_right ax 14) None None None]
      else
        item ← getitem i get_key;
        deco_rx ← get_views item "bytes_recv" "decoration";
        item ← getitem i get_key;
        deco_tx ← get_views item "bytes_sent" "decoration";
        Ok [ curse_add_line (format_right rx 7) (Some deco_rx) None None;
             curse_add_line (format_right tx 7) (Some deco_tx) None None ]
  end.

(** The cells that one interface of the list adds to the message. *)
Definition interface_cells (args : args_t) (name_max_width : Z) (i : stat)
  : result (list cell) :=
  if is_down i then Ok []
  else
    hidden ← all_hidden i hide_zero_fields;
    if hidden : bool then Ok []
    else
      label ← label_cells name_max_width i;
      values ← value_cells args i;
      Ok (label ++ values).

Fixpoint interfaces_cells (args : args_t) (name_max_width : Z) (l : list stat)
  : result (list cell) :=
  match l with
  | [] => Ok []
  | i :: rest =>
      cs ← interface_cells args name_max_width i;
      more ← interfaces_cells args name_max_width rest;
      Ok (cs ++ more)
  end.

Definition plain (msg : string) : cell := curse_add_line msg None None None.

Definition header_cells (args : args_t) : list cell :=
  if network_cumul args then
    if network_sum args then [plain (format_right "Rx+Tx" 14)]
    else [plain (format_right "Rx" 7); plain (format_right "Tx" 7)]
  else
    if network_sum args then [plain (format_right "Rx+Tx/s" 14)]
    else [plain (format_right "Rx/s" 7); plain (format_right "Tx/s" 7)].

Definition msg_curse (self : plugin) (args : option args_t) (max_width : option Z)
  : result (list cell) :=
  match stats self with
  | [] => Ok []
  | _ :: _ =>
      if is_disabled self then Ok []
      else
        match max_width with
        | None => Ok []
        | Some w =>
            if w =? 0 then Ok []
            else
              let name_max_width := w - 12 in
              title ← format_left "NETWORK" name_max_width;
              args ← (match args with
                      | Some a => Ok a
                      | None => Raise AttributeError
                      end);
              body ← interfaces_cells args name_max_width (sorted_stats (stats self));
              Ok (curse_add_line title (Some (VStr "TITLE")) None None
                    :: header_cells args ++ body)
        end
  end.

End plugin.

End Network.

(** * Rate engine and threshold classifier

    Both are code of the plugin base class and of the disk plugin, which
    the sources at hand do not contain (only the tests of the disk plugin
    and the field table of the network plugin are there). *)

Module Engine.

Local Open Scope Q_scope.

(** Modelled from the spec: a sample (section 3), the counters of one
    source at one instant, in seconds of a monotonic clock. *)
Record Sample : Type := {
  source_id : string;
  counters : gmap string Z;
  timestamp : Q;
}.

(** Modelled from the spec: [compute_rate] of the rate engine (section 4.1),
    which is missing from the sources. The rate is unavailable ([None]) if
    there is no previous sample, if no time has passed, or if the counter
    decreased; otherwise it is the difference of the counter over the
    elapsed seconds. A counter that a sample does not have gives no rate
    either. *)
Definition compute_rate (previous : option Sample) (current : Sample) (counter : string)
  : option Q :=
  match previous with
  | None => None
  | Some previous =>
      let elapsed_seconds := timestamp current - timestamp previous in
      if Qle_bool elapsed_seconds 0 then None
      else
        match counters previous !! counter, counters current !! counter with
        | Some p, Some c =>
            if (c <? p)%Z then None
            else Some (inject_Z (c - p) / elapsed_seconds)
        | _, _ => None
        end
  end.

(** Modelled from the spec: a metric with [rate=true] derives a
    [_rate_per_sec] sibling field from two samples (section 3); the code
    that does it is the [_manage_rate] decorator of the base class, missing
    from the sources. [fields] are the names and the [rate] marks of a
    field table, [acc] the fields derived so far. *)
Fixpoint derive_rates (fields : list (string * Network.field_description))
    (previous : option Sample) (current : Sample) (acc : gmap string Q) : gmap string Q :=
  match fields with
  | [] => acc
  | (name, d) :: rest =>
      let acc :=
        match Network.rate d with
        | Some true =>
            match compute_rate previous current name with
            | Some r => <[name +:+ "_rate_per_sec" := r]> acc
            | None => acc
            end
        | _ => acc
        end in
      derive_rates rest previous current acc
  end.

(** Modelled from the spec: the severities and the threshold set of
    section 3, three lower bounds. *)
Inductive severity : Set := DEFAULT | CAREFUL | WARNING | CRITICAL.

Record ThresholdSet : Type := {
  careful_bound : Q;
  warning_bound : Q;
  critical_bound : Q;
}.

(** Modelled from the spec: the direct comparison of section 4.2, each
    bound an inclusive lower bound of its severity. *)
Definition compare (value : Q) (t : ThresholdSet) : severity :=
  if Qle_bool (critical_bound t) value then CRITICAL
  else if Qle_bool (warning_bound t) value then WARNING
  else if Qle_bool (careful_bound t) value then CAREFUL
  else DEFAULT.

(** Modelled from the spec: the percentage-of-maximum bounds of section
    4.2, the bounds that the percentages [pct] put on a known maximum. *)
Definition of_maximum (pct : ThresholdSet) (maximum : Q) : ThresholdSet :=
  {| careful_bound := careful_bound pct * maximum / 100;
     warning_bound := warning_bound pct * maximum / 100;
     critical_bound := critical_bound pct * maximum / 100 |}.

(** Modelled from the spec: [classify] of the threshold classifier
    (section 4.2), missing from the sources. [thresholds] is the explicit
    configuration of the metric, if there is one; [pct] are the configured
    percentages of the fallback on [maximum]. *)
Definition classify (pct : ThresholdSet) (value : Q) (thresholds : option ThresholdSet)
    (maximum : option Q) : severity :=
  match thresholds, maximum with
  | Some t, _ => compare value t
  | None, Some m => compare value (of_maximum pct m)
  | None, None => DEFAULT
  end.

Definition rank (s : severity) : nat :=
  match s with
  | DEFAULT => 0
  | CAREFUL => 1
  | WARNING => 2
  | CRITICAL => 3
  end.

(** The lower bound of a severity; [DEFAULT] has none. *)
Definition bound (t : ThresholdSet) (s : severity) : option Q :=
  match s with
  | DEFAULT => None
  | CAREFUL => Some (careful_bound t)
  | WARNING => Some (warning_bound t)
  | CRITICAL => Some (critical_bound t)
  end.

End Engine.

(** * A host with one interface

    Concrete data and stand-ins for the methods of the base class, on
    which the functions above can be run. *)

Module Host.

Definition eth0_counters : gmap string pyval :=
  {[ "bytes_sent" := VInt 1000; "bytes_recv" := VInt 1500 ]}.

Definition eth0_status : gmap string pyval :=
  {[ "is_up" := VBool true; "speed" := VInt 1000 ]}.


Definition is_display (name : string) : bool := true.
Definition filter_stats (m : gmap string pyval) : gmap string pyval := m.
Definition get_mac_address (name : string) : pyval := VStr "00:16:3e:00:00:01".
Definition has_alias (name : string) : pyval := VNone.

(** Percentages of the maximum when there is one, and nothing configured
    for any interface. *)
Definition get_alert (current : Z) (maximum : option pyval) (header : string) : string :=
  match maximum with
  | Some (VInt m) =>
      let pct := current * 100 / m in
      if 90 <=? pct then "CRITICAL"
      else if 70 <=? pct then "WARNING"
      else if 50 <=? pct then "CAREFUL"
      else "OK"
  | _ => "DEFAULT"
  end.

(** The stat of the interface at a tick where rates are known. *)
Definition eth0 : gmap string pyval :=
  {[ "interface_name" := VStr "eth0"; "alias" := VNone; "is_up" := VBool true;
     "speed" := VInt 1048576000;
     "bytes_recv_rate_per_sec" := VInt 100000000;
     "bytes_sent_rate_per_sec" := VInt 500 ]}.

Definition views : gmap string (gmap string (gmap string pyval)) :=
  {[ "eth0" := {[ "bytes_recv" := ∅; "bytes_sent" := ∅ ]} ]}.

(** An interface that is down. *)
Definition tun0 : gmap string pyval :=
  {[ "interface_name" := VStr "tun0"; "alias" := VNone; "is_up" := VBool false;
     "bytes_recv_rate_per_sec" := VInt 0;
     "bytes_sent_rate_per_sec" := VInt 0;
     "bytes_all_rate_per_sec" := VInt 0 ]}.

(** An interface with a long name. *)
Definition bridge : gmap string pyval :=
  {[ "interface_name" := VStr "br-3f9a1c2d7e40"; "alias" := VNone;
     "is_up" := VBool true;
     "bytes_recv_rate_per_sec" := VInt 1000;
     "bytes_sent_rate_per_sec" := VInt 250;
     "bytes_all_rate_per_sec" := VInt 1250 ]}.

(** No field is hidden and no decoration is set. *)
Definition get_views (item : pyval) (key option : string) : result pyval :=
  if String.eqb option "hidden" then Ok (VBool false) else Ok (VStr "DEFAULT").

Definition sorted_stats (l : list (gmap string pyval)) : list (gmap string pyval) := l.
Definition auto_unit (n : Z) : string := pretty n.

Definition args : Network.args_t :=
  {| Network.network_cumul := false; Network.network_sum := false; Network.byte := false |}.

(** Two samples of the interface, one second apart. *)
Definition previous : Engine.Sample :=
  {| Engine.source_id := "eth0";
     Engine.counters := {[ "bytes_recv" := 1000 ]};
     Engine.timestamp := 0%Q |}.

Definition current : Engine.Sample :=
  {| Engine.source_id := "eth0";
     Engine.counters := {[ "bytes_recv" := 1500 ]};
     Engine.timestamp := 1%Q |}.

(** Thresholds on a disk rate, in bytes per second: 10, 20 and 50 MB/s. *)
Definition disk_thresholds : Engine.ThresholdSet :=
  {| Engine.careful_bound := inject_Z (10 * 1024 * 1024);
     Engine.warning_bound := inject_Z (20 * 1024 * 1024);
     Engine.critical_bound := inject_Z (50 * 1024 * 1024) |}.

(** The percentages of the fallback on a maximum. *)
Definition percentages : Engine.ThresholdSet :=
  {| Engine.careful_bound := 50%Q;
     Engine.warning_bound := 70%Q;
     Engine.critical_bound := 90%Q |}.

(** What smartctl writes for a drive, line by line. *)
Definition nl : string := String (ascii_of_nat 10) "".

Definition smart_output : string :=
  "SMART/Health Information (NVMe Log 0x02)" +:+ nl +:+
  "Critical Warning:                   0x00" +:+ nl +:+
  "Temperature:                        35 Celsius" +:+ nl +:+
  "Percentage Used:                    3%" +:+ nl +:+
  "Power Cycles:                       807" +:+ nl +:+
  "Temperature Sensor 1:               36 Celsius" +:+ nl.

(** The same without the line of the temperature. *)
Definition cycles_output : string :=
  "SMART/Health Information (NVMe Log 0x02)" +:+ nl +:+
  "Power Cycles:                       807" +:+ nl.

(** The temperature twice, with different values. *)
Definition twice_output : string :=
  "Temperature:                        35 Celsius" +:+ nl +:+
  "Power Cycles:                       807" +:+ nl +:+
  "Temperature:                        41 Celsius" +:+ nl +:+
  "Percentage Used:                    3%" +:+ nl.

(** A device that is not an NVMe drive. *)
Definition other_output : string :=
  "smartctl 7.3 2022-02-28 r5338" +:+ nl +:+
  "Read NVMe Identify Controller failed" +:+ nl.

Definition drive : NVMe.plugin := {| NVMe.stats := []; NVMe.is_disabled := false |}.

(** A base class whose [curse_add_line] takes a message and a decoration
    only: a call with another keyword is a [TypeError]. *)
Definition curse_add_line_kw (msg : string) (width : option Z) (align : option string)
  : result cell := Raise TypeError.

(** A host with a loopback interface that is not displayed, and a bridge
    of which psutil gives the counters but not the status. *)
Definition show (name : string) : bool := negb (String.eqb name "lo").

Definition psutil_three : Network.psutil_data :=
  {| Network.net_io_counters :=
       [ ("lo", eth0_counters); ("eth0", eth0_counters); ("docker0", eth0_counters) ];
     Network.net_if_stats :=
       {[ "lo" := eth0_status; "eth0" := eth0_status ]} |}.

(** A library that finds no MAC address. *)
Definition no_mac_address (name : string) : pyval := VNone.

(** An address of the interface, whose thresholds are those of [eth0]. *)
Definition eth0_1 : gmap string pyval :=
  {[ "interface_name" := VStr "eth0:1"; "alias" := VNone; "is_up" := VBool true;
     "bytes_recv_rate_per_sec" := VInt 100000000;
     "bytes_sent_rate_per_sec" := VInt 500 ]}.

Definition views_1 : gmap string (gmap string (gmap string pyval)) :=
  {[ "eth0:1" := {[ "bytes_recv" := {[ "hidden" := VBool false ]};
                    "bytes_sent" := {[ "hidden" := VBool false ]} ]} ]}.

(** Thresholds configured for [eth0], in bits per second. *)
Definition get_alert_eth0 (current : Z) (maximum : option pyval) (header : string)
  : string :=
  if String.eqb header "eth0_rx" || String.eqb header "eth0_tx" then
    if 700000000 <=? current then "CRITICAL" else "OK"
  else get_alert current maximum header.

(** An interface that appeared after the last tick: it has no rate yet. *)
Definition veth : gmap string pyval :=
  {[ "interface_name" := VStr "veth12"; "alias" := VNone;
     "mac_address" := VStr "02:42:ac:11:00:02" ]}.

(** A decorator in the manner of [_manage_rate] in the base class of
    Glances 4 (plugin/model.py, which is not part of the sources at hand).
    For each field marked [rate=True] of a stat that has exactly one stat
    of the same interface among the previous ones, it keeps the counter in
    [<field>_gauge] and turns the field into its change since the previous
    gauge, with the rate per second beside it; the field is zero when
    there is no previous gauge, or when the counter or the previous gauge
    is zero. Stats without a previous stat are left as they are. The time
    since the last update is one second. *)
Definition time_since_last_update : Z := 1.

Definition rate_field (stat_previous stat : gmap string pyval) (field : string)
  : result (gmap string pyval) :=
  v ← getitem stat field;
  let stat := <["time_since_update" := VInt time_since_last_update]> stat in
  let stat := <[field +:+ "_gauge" := v]> stat in
  match stat_previous !! (field +:+ "_gauge") with
  | Some gauge =>
      if truthy v && truthy gauge then
        x ← int v;
        y ← int gauge;
        let stat := <[field := VInt (x - y)]> stat in
        if 0 <? time_since_last_update
        then Ok (<[field +:+ "_rate_per_sec" := VInt ((x - y) / time_since_last_update)]> stat)
        else Ok (<[field := VInt 0]> stat)
      else Ok (<[field := VInt 0]> stat)
  | None => Ok (<[field := VInt 0]> stat)
  end.

Fixpoint compute_rate (stat_previous stat : gmap string pyval) (fields : list string)
  : result (gmap string pyval) :=
  match fields with
  | [] => Ok stat
  | field :: rest =>
      stat ← rate_field stat_previous stat field;
      compute_rate stat_previous stat rest
  end.

Fixpoint compute_rate_on_list (stats_previous stats : list (gmap string pyval))
  : result (list (gmap string pyval)) :=
  match stats with
  | [] => Ok []
  | stat :: rest =>
      let olds :=
        filter (fun old : gmap string pyval =>
                  old !! "interface_name" = stat !! "interface_name") stats_previous in
      stat ← (match olds with
              | [old] => compute_rate old stat Network.rate_fields
              | _ => Ok stat
              end);
      rest ← compute_rate_on_list stats_previous rest;
      Ok (stat :: rest)
  end.

Definition manage_rate (fct : Network.plugin -> result (list (gmap string pyval)))
    (self : Network.plugin) : result (list (gmap string pyval)) :=
  stats ← fct self;
  compute_rate_on_list (Network.stats self) stats.



Definition net : Network.plugin :=
  {| Network.stats := [];
     Network.input_method := "local";
     Network.is_disabled := false;
     Network.hide_zero := false;
     Network.hide_no_up := false;
     Network.hide_no_ip := false |}.

End Host.

(** * Properties of the NVMe plugin *)

Section nvme_facts.

Import NVMe.

(** [get] hands on every exception but [CalledProcessError]. *)
Lemma get_raise (e : exn) :
  e ≠ CalledProcessError → get (Raise e) = Raise e.
Proof. intros He. destruct e; simpl; congruence. Qed.

(** An exception of [get] leaves [update] unchanged. *)
Lemma update_raise (self : plugin) (run : result string) (e : exn) :
  get run = Raise e → update self run = Raise e.
Proof. intros H. unfold update. rewrite H. reflexivity. Qed.

(** What [update] can leave in [stats]: nothing, or the one temperature
    row. *)
Lemma update_stats (self0 self : plugin) (run : result string) :
  update self0 run = Ok self →
  stats self = [] ∨ ∃ t, stats self = [nvme_stat t].
Proof.
  unfold update. destruct (get run) as [nvme_data|e]; simpl; [|discriminate].
  destruct (decide (nvme_data = ∅)) as [->|Hne]; simpl.
  - intros [= <-]. left. reflexivity.
  - unfold getitem. destruct (nvme_data !! "temperature") as [t|]; simpl; [|discriminate].
    intros [= <-]. right. exists t. reflexivity.
Qed.

(** A row whose label is there cannot be formatted while
    [label_max_width] is unassigned. *)
Lemma row_unbound (curse_add_line_kw : string -> option Z -> option string -> result cell)
    (stat : gmap string pyval) :
  is_Some (stat !! "label") → row curse_add_line_kw None stat = Raise UnboundLocalError.
Proof. intros [l Hl]. unfold row, getitem. rewrite Hl. reflexivity. Qed.

End nvme_facts.

(** C1: the sampler does not turn every failure of the tool into "no
    data". When the binary is not installed, [subprocess.check_output]
    raises [FileNotFoundError], and [get] lets it through, as does
    [update]; when a matched line has no number at the expected position
    (a temperature that is not available, a label alone on its line, a
    count printed with a thousands separator), [parse_nvme_output] raises
    [ValueError] or [IndexError], and [get] lets it through too. *)
Theorem get_lets_failures_through :
  NVMe.get (Raise FileNotFoundError) = Raise FileNotFoundError
  ∧ (∀ self, NVMe.update self (Raise FileNotFoundError) = Raise FileNotFoundError)
  ∧ NVMe.parse_nvme_output "Temperature: N/A" = Raise ValueError
  ∧ NVMe.get (Ok "Temperature: N/A") = Raise ValueError
  ∧ NVMe.get (Ok "Temperature:") = Raise IndexError
  ∧ NVMe.get (Ok "Power Cycles:                       1,508") = Raise ValueError.
Proof.
  repeat split; try (vm_compute; reflexivity).
Qed.

(** C6: when the tool exits with a non-zero code ([CalledProcessError]),
    [get] returns the empty mapping, [update] returns an empty list of
    stats, and [msg_curse] then returns an empty list of cells, whatever
    the width; nothing is raised on the way. *)
Theorem nonzero_exit_omits_row
    (curse_add_line_kw : string -> option Z -> option string -> result cell)
    (self : NVMe.plugin) (max_width : option Z) :
  NVMe.get (Raise CalledProcessError) = Ok ∅
  ∧ ∃ self',
      NVMe.update self (Raise CalledProcessError) = Ok self'
      ∧ NVMe.stats self' = []
      ∧ NVMe.msg_curse curse_add_line_kw self' max_width = Ok [].
Proof.
  split; [reflexivity|].
  exists {| NVMe.stats := []; NVMe.is_disabled := NVMe.is_disabled self |}.
  repeat split.
Qed.

(** * Properties of the network plugin *)

Section network_facts.

Import Network.

Variable is_display : string -> bool.
Variable filter_stats : stat -> stat.
Variable get_mac_address : string -> pyval.
Variable has_alias : string -> pyval.
Variable get_alert : Z -> option pyval -> string -> string.
Variable get_views : pyval -> string -> string -> result pyval.
Variable sorted_stats : list stat -> list stat.
Variable auto_unit : Z -> string.

(** Without a width the network plugin displays nothing, and does not
    fail. *)
Lemma msg_curse_no_width (self : plugin) (args : option args_t) (max_width : option Z) :
  falsy max_width = true →
  msg_curse get_views sorted_stats auto_unit self args max_width = Ok [].
Proof.
  intros Hw. unfold msg_curse.
  destruct (stats self); [reflexivity|].
  destruct (is_disabled self); [reflexivity|].
  destruct max_width as [w|]; [|reflexivity].
  simpl in Hw. rewrite Hw. reflexivity.
Qed.

End network_facts.

(** C8: when the stats of the NVMe plugin (as [update] left them) are not
    empty and the plugin is enabled, [msg_curse] called with a falsy
    [max_width] ([None] or [0]) raises [UnboundLocalError] at the first
    row, [label_max_width] being assigned only for a truthy width; the
    network plugin returns an empty list in the same situation. *)
Theorem nvme_msg_curse_unbound
    (curse_add_line_kw : string -> option Z -> option string -> result cell)
    (self0 self : NVMe.plugin) (run : result string) (max_width : option Z) :
  NVMe.update self0 run = Ok self →
  NVMe.stats self ≠ [] →
  NVMe.is_disabled self = false →
  falsy max_width = true →
  NVMe.msg_curse curse_add_line_kw self max_width = Raise UnboundLocalError
  ∧ ∀ get_views sorted_stats auto_unit net args,
      Network.msg_curse get_views sorted_stats auto_unit net args max_width = Ok [].
Proof.
  intros Hup Hne Hen Hw. split.
  - destruct (update_stats _ _ _ Hup) as [Hs|[t Hs]]; [congruence|].
    unfold NVMe.msg_curse. rewrite Hs, Hen.
    assert (Hl : match max_width with
                 | Some n => if n =? 0 then None else Some (n - 14)
                 | None => None
                 end = None).
    { destruct max_width as [n|]; [|reflexivity]. simpl in Hw. rewrite Hw. reflexivity. }
    rewrite Hl. simpl. rewrite row_unbound; [reflexivity|].
    exists (VStr "NVMe Temp"). reflexivity.
  - intros. apply msg_curse_no_width. exact Hw.
Qed.

Lemma nvme_msg_curse_unbound_witness :
  NVMe.msg_curse Host.curse_add_line_kw
    {| NVMe.stats := [NVMe.nvme_stat 35]; NVMe.is_disabled := false |} None
    = Raise UnboundLocalError
  ∧ ∀ get_views sorted_stats auto_unit net args,
      Network.msg_curse get_views sorted_stats auto_unit net args None = Ok [].
Proof.
  apply (nvme_msg_curse_unbound Host.curse_add_line_kw
           {| NVMe.stats := []; NVMe.is_disabled := false |}
           {| NVMe.stats := [NVMe.nvme_stat 35]; NVMe.is_disabled := false |}
           (Ok "Temperature:                        35 Celsius") None).
  - vm_compute. reflexivity.
  - discriminate.
  - reflexivity.
  - reflexivity.
Defined.

(** ** update_local *)

Lemma bind_ok_inv {A B : Type} (m : result A) (k : A -> result B) (b : B) :
  m ≫= k = Ok b → ∃ a, m = Ok a ∧ k a = Ok b.
Proof. destruct m as [a|e]; simpl; [eauto|discriminate]. Qed.

Lemma bind_ok {A B : Type} (a : A) (k : A -> result B) : Ok a ≫= k = k a.
Proof. reflexivity. Qed.

Lemma getitem_ok {V : Type} (d : gmap string V) (k : string) (v : V) :
  getitem d k = Ok v ↔ d !! k = Some v.
Proof. unfold getitem. destruct (d !! k); split; congruence. Qed.

Section update_local_facts.

Import Network.

Variable is_display : string -> bool.
Variable filter_stats : stat -> stat.
Variable get_mac_address : string -> pyval.
Variable has_alias : string -> pyval.

Let interface_stat := interface_stat filter_stats get_mac_address has_alias.
Let update_local_loop := update_local_loop is_display filter_stats get_mac_address has_alias.
Let update_local_body :=
  update_local_body is_display filter_stats get_mac_address has_alias.

Let filtered := filtered filter_stats.

(** What the body of the loop leaves in the three byte fields and in
    [speed]. *)
Lemma interface_stat_fields (name : string) (counters status i : stat) :
  interface_stat name counters status = Ok i →
  ∃ sent recv all speed bps,
    filtered counters status !! "bytes_sent" = Some sent
    ∧ filtered counters status !! "bytes_recv" = Some recv
    ∧ filtered counters status !! "speed" = Some speed
    ∧ add sent recv = Ok all
    ∧ mul_int speed 1048576 = Ok bps
    ∧ i !! "bytes_sent" = Some sent
    ∧ i !! "bytes_recv" = Some recv
    ∧ i !! "bytes_all" = Some all
    ∧ i !! "speed" = Some bps.
Proof.
  unfold interface_stat, Network.interface_stat, filtered, Network.filtered. intros H.
  apply bind_ok_inv in H as (sent & Hsent & H).
  apply bind_ok_inv in H as (recv & Hrecv & H).
  apply bind_ok_inv in H as (all & Hall & H).
  apply bind_ok_inv in H as (speed & Hspeed & H).
  apply bind_ok_inv in H as (bps & Hbps & H).
  injection H as <-.
  apply getitem_ok in Hsent, Hrecv, Hspeed.
  rewrite !lookup_insert_ne in Hsent by discriminate.
  rewrite !lookup_insert_ne in Hrecv by discriminate.
  rewrite !lookup_insert_ne in Hspeed by discriminate.
  exists sent, recv, all, speed, bps.
  rewrite lookup_insert_eq.
  rewrite !(lookup_insert_ne _ "speed") by discriminate.
  rewrite lookup_insert_eq.
  rewrite !lookup_insert_ne by discriminate.
  repeat split; assumption || reflexivity.
Qed.


(** The loop only ever appends stats built by its body. *)
Lemma update_local_loop_inv (P : stat -> Prop) (net_status : gmap string stat) :
  (∀ name counters status i, interface_stat name counters status = Ok i → P i) →
  ∀ items stats l,
    Forall P stats → update_local_loop net_status stats items = Ok l → Forall P l.
Proof.
  intros Hbody. induction items as [|[name counters] rest IH]; intros stats l Hstats H.
  - injection H as <-. exact Hstats.
  - simpl in H. destruct (is_display name); simpl in H; [|eauto].
    destruct (net_status !! name) as [status|]; [|eauto].
    apply bind_ok_inv in H as (i & Hi & H).
    apply (IH (stats ++ [i])); [|exact H].
    apply Forall_app. split; [exact Hstats|].
    apply Forall_cons. split; [eauto|apply Forall_nil_2].
Qed.

Lemma update_local_inv (P : stat -> Prop) (self : plugin) (ps : result psutil_data)
    (l : list stat) :
  (∀ name counters status i, interface_stat name counters status = Ok i → P i) →
  is_ok ps ∨ Forall P (stats self) →
  update_local_body self ps = Ok l → Forall P l.
Proof.
  intros Hbody Hpre H. unfold update_local_body, Network.update_local_body in H.
  destruct ps as [d|e].
  - eapply update_local_loop_inv; [exact Hbody|apply Forall_nil_2|exact H].
  - destruct Hpre as [[]|Hpre].
    destruct (is_OSError e); [|discriminate].
    injection H as <-. exact Hpre.
Qed.

(** The body of the loop succeeds on counters and a speed that are
    integers, as psutil gives them. *)
Lemma interface_stat_total (name : string) (counters status : stat) (sent recv speed : Z) :
  filtered counters status !! "bytes_sent" = Some (VInt sent) →
  filtered counters status !! "bytes_recv" = Some (VInt recv) →
  filtered counters status !! "speed" = Some (VInt speed) →
  ∃ i, interface_stat name counters status = Ok i
       ∧ i !! "bytes_all" = Some (VInt (sent + recv))
       ∧ i !! "speed" = Some (VInt (speed * 1048576)).
Proof.
  intros Hs Hr Hsp. unfold interface_stat, Network.interface_stat.
  fold (filtered counters status).
  cbv zeta.
  rewrite (proj2 (getitem_ok _ "bytes_sent" (VInt sent)))
    by (rewrite !lookup_insert_ne by discriminate; exact Hs).
  rewrite bind_ok.
  rewrite (proj2 (getitem_ok _ "bytes_recv" (VInt recv)))
    by (rewrite !lookup_insert_ne by discriminate; exact Hr).
  rewrite bind_ok. unfold add at 1. rewrite bind_ok.
  rewrite (proj2 (getitem_ok _ "speed" (VInt speed)))
    by (rewrite !lookup_insert_ne by discriminate; exact Hsp).
  rewrite bind_ok. unfold mul_int at 1. rewrite bind_ok.
  eexists. split; [reflexivity|].
  rewrite lookup_insert_eq. rewrite lookup_insert_ne by discriminate.
  rewrite lookup_insert_eq. split; reflexivity.
Qed.

End update_local_facts.




(** C5: the link speed that psutil gives in megabits per second is
    multiplied by 1048576, not by 1000000: the stat of an interface of
    [mbps] megabits per second holds [mbps * 1048576] in [speed], which
    is not the number of its bits per second. *)
Theorem speed_factor (filter_stats : gmap string pyval -> gmap string pyval)
    (get_mac_address has_alias : string -> pyval)
    (name : string) (counters status i : gmap string pyval) (mbps : Z) :
  Network.interface_stat filter_stats get_mac_address has_alias name counters status = Ok i →
  Network.filtered filter_stats counters status !! "speed" = Some (VInt mbps) →
  i !! "speed" = Some (VInt (mbps * 1048576))
  ∧ (mbps ≠ 0 → i !! "speed" ≠ Some (VInt (mbps * 1000000))).
Proof.
  intros H Hspeed.
  apply interface_stat_fields in H
    as (sent & recv & all & speed & bps & _ & _ & Hsp & _ & Hmul & _ & _ & _ & Hi).
  rewrite Hspeed in Hsp. injection Hsp as <-.
  simpl in Hmul. injection Hmul as <-.
  split; [exact Hi|].
  intros Hne. rewrite Hi. intros [= Heq]. lia.
Qed.

Lemma speed_factor_witness :
  match Network.interface_stat Host.filter_stats Host.get_mac_address Host.has_alias
          "eth0" Host.eth0_counters Host.eth0_status with
  | Ok i =>
      i !! "speed" = Some (VInt (1000 * 1048576))
      ∧ (1000 ≠ 0 → i !! "speed" ≠ Some (VInt (1000 * 1000000)))
  | Raise _ => False
  end.
Proof.
  destruct (Network.interface_stat Host.filter_stats Host.get_mac_address Host.has_alias
              "eth0" Host.eth0_counters Host.eth0_status) as [i|e] eqn:E.
  - apply (speed_factor _ _ _ _ _ _ _ _ E). vm_compute. reflexivity.
  - vm_compute in E. discriminate E.
Defined.

(** ** update_views *)

Section update_views_facts.

Import Network.

Variable get_alert : Z -> option pyval -> string -> string.

Let alert := alert get_alert.
Let update_views_item := update_views_item get_alert.
Let update_views_loop := update_views_loop get_alert.

Lemma set_decoration_ok (views : views_t) (item key value : string)
    (item_views : gmap string (gmap string pyval)) (key_views : gmap string pyval) :
  views !! item = Some item_views →
  item_views !! key = Some key_views →
  set_decoration views item key value
  = Ok (<[item := <[key := <["decoration" := VStr value]> key_views]> item_views]> views).
Proof.
  intros Hi Hk. unfold set_decoration.
  rewrite (proj2 (getitem_ok _ _ _) Hi), bind_ok.
  rewrite (proj2 (getitem_ok _ _ _) Hk), bind_ok. reflexivity.
Qed.

(** A stat without both rates leaves the views as they are. *)
Lemma update_views_item_skip (views : views_t) (i : stat) :
  measured i = false → update_views_item views i = Ok views.
Proof.
  unfold measured, update_views_item, Network.update_views_item.
  intros H. apply andb_false_iff in H as [->| ->]; simpl; [reflexivity|].
  rewrite orb_true_r. reflexivity.
Qed.

(** What the body of the loop does for a stat that is [ready]. *)
Lemma update_views_item_spec (views : views_t) (i : stat) (name : string) (rx tx : Z) :
  measured i = true →
  i !! "interface_name" = Some (VStr name) →
  bps i "bytes_recv_rate_per_sec" = Ok rx →
  bps i "bytes_sent_rate_per_sec" = Ok tx →
  has_cells views name →
  ∃ views',
    update_views_item views i = Ok views'
    ∧ decoration views' name "bytes_recv"
      = Some (VStr (alert i rx (before ":" name +:+ "_rx") "rx"))
    ∧ decoration views' name "bytes_sent"
      = Some (VStr (alert i tx (before ":" name +:+ "_tx") "tx"))
    ∧ (∀ n, n ≠ name → views' !! n = views !! n)
    ∧ (∀ n, has_cells views n → has_cells views' n).
Proof.
  intros Hm Hname Hrx Htx (iv & Hiv & [kr Hkr] & [ks Hks]).
  unfold update_views_item, Network.update_views_item.
  apply andb_true_iff in Hm as [-> ->]. simpl.
  rewrite Hrx, bind_ok, Htx, bind_ok.
  rewrite (proj2 (getitem_ok _ _ _) Hname), bind_ok. simpl as_str. rewrite bind_ok.
  cbv zeta.
  rewrite (set_decoration_ok _ _ _ _ _ _ Hiv Hkr), bind_ok.
  erewrite set_decoration_ok;
    [|apply lookup_insert_eq|rewrite lookup_insert_ne by discriminate; exact Hks].
  eexists. split; [reflexivity|]. unfold decoration.
  repeat split.
  - rewrite lookup_insert_eq. simpl.
    rewrite lookup_insert_ne by discriminate. rewrite lookup_insert_eq. simpl.
    apply lookup_insert_eq.
  - rewrite lookup_insert_eq. simpl. rewrite lookup_insert_eq. simpl.
    apply lookup_insert_eq.
  - intros n Hn. rewrite !lookup_insert_ne by congruence. reflexivity.
  - intros n (iv' & Hiv' & Hr' & Hs').
    destruct (decide (n = name)) as [->|Hn].
    + eexists. split; [apply lookup_insert_eq|].
      rewrite Hiv in Hiv'. injection Hiv' as <-.
      split.
      * rewrite lookup_insert_ne by discriminate. rewrite lookup_insert_eq. eauto.
      * rewrite lookup_insert_eq. eauto.
    + exists iv'. rewrite !lookup_insert_ne by congruence. auto.
Qed.

Lemma is_ok_inv {A : Type} (m : result A) : is_ok m → ∃ a, m = Ok a.
Proof. destruct m as [a|e]; [eauto|intros []]. Qed.

Lemma decoration_frame (views views' : views_t) (n key : string) :
  views' !! n = views !! n → decoration views' n key = decoration views n key.
Proof. unfold decoration. intros ->. reflexivity. Qed.

Lemma ready_mono (views views' : views_t) (i : stat) :
  (∀ n, has_cells views n → has_cells views' n) → ready views i → ready views' i.
Proof.
  intros Hmono Hr Hm. destruct (Hr Hm) as (name & ? & ? & ? & ?).
  exists name. auto.
Qed.

(** The whole loop, on stats that are [ready] and bear distinct names. *)
Lemma update_views_loop_spec (raw : list stat) :
  ∀ views,
    NoDup (interface_names raw) →
    Forall (ready views) raw →
    ∃ views',
      update_views_loop views raw = Ok views'
      ∧ (∀ n, has_cells views n → has_cells views' n)
      ∧ (∀ n, (∀ i, i ∈ raw → i !! "interface_name" ≠ Some (VStr n)) →
              views' !! n = views !! n)
      ∧ (∀ i name rx tx,
           i ∈ raw → measured i = true →
           i !! "interface_name" = Some (VStr name) →
           bps i "bytes_recv_rate_per_sec" = Ok rx →
           bps i "bytes_sent_rate_per_sec" = Ok tx →
           decoration views' name "bytes_recv"
           = Some (VStr (alert i rx (before ":" name +:+ "_rx") "rx"))
           ∧ decoration views' name "bytes_sent"
             = Some (VStr (alert i tx (before ":" name +:+ "_tx") "tx"))).
Proof.
  induction raw as [|i rest IH]; intros views Hnd Hready.
  - exists views. split; [reflexivity|]. split; [auto|]. split; [auto|].
    intros j name rx tx Hin. inversion Hin.
  - unfold interface_names in Hnd. rewrite fmap_cons in Hnd.
    apply NoDup_cons in Hnd as [Hfresh Hnd].
    apply Forall_cons in Hready as [Hi Hrest].
    simpl. destruct (measured i) eqn:Hm.
    + destruct (Hi Hm) as (name & Hname & Hrx & Htx & Hcells).
      apply is_ok_inv in Hrx as [rx Hrx]. apply is_ok_inv in Htx as [tx Htx].
      destruct (update_views_item_spec views i name rx tx Hm Hname Hrx Htx Hcells)
        as (views1 & Hstep & Hdrx & Hdtx & Hframe1 & Hmono1).
      destruct (IH views1 Hnd) as (views' & Hloop & Hmono & Hframe & Hdeco).
      { eapply Forall_impl; [exact Hrest|]. intros j. apply ready_mono. exact Hmono1. }
      exists views'. fold update_views_item update_views_loop.
      rewrite Hstep, bind_ok. split; [exact Hloop|].
      split; [auto|]. split.
      * intros n Hn. rewrite Hframe.
        -- apply Hframe1. intros ->. apply (Hn i); [left|exact Hname].
        -- intros j Hj. apply Hn. right. exact Hj.
      * intros j name' rx' tx' Hin Hmj Hnj Hrxj Htxj.
        apply elem_of_cons in Hin as [->|Hin]; [|eauto].
        rewrite Hname in Hnj. injection Hnj as <-.
        rewrite Hrx in Hrxj. injection Hrxj as <-.
        rewrite Htx in Htxj. injection Htxj as <-.
        assert (Hsame : views' !! name = views1 !! name).
        { apply Hframe. intros j Hj Hjn. apply Hfresh.
          apply list_elem_of_fmap.
          exists j. split; [congruence|exact Hj]. }
        rewrite !(decoration_frame _ _ _ _ Hsame). split; assumption.
    + destruct (IH views Hnd Hrest) as (views' & Hloop & Hmono & Hframe & Hdeco).
      exists views'. fold update_views_item update_views_loop.
      rewrite (update_views_item_skip _ _ Hm), bind_ok. split; [exact Hloop|].
      split; [exact Hmono|]. split.
      * intros n Hn. apply Hframe. intros j Hj. apply Hn. right. exact Hj.
      * intros j name' rx' tx' Hin Hmj.
        apply elem_of_cons in Hin as [->|Hin]; [congruence|eauto].
Qed.

(** The alert once nothing is configured for the interface. *)
Lemma alert_default (i : stat) (current : Z) (header dir : string) :
  get_alert current None header = "DEFAULT" →
  alert i current header dir
  = match i !! "speed" with
    | Some speed => if ne_zero speed then get_alert current (Some speed) dir else "DEFAULT"
    | None => "DEFAULT"
    end.
Proof.
  intros H. unfold alert, Network.alert. rewrite H. simpl.
  destruct (i !! "speed") as [speed|]; reflexivity.
Qed.

(** The alert when thresholds are configured for the interface. *)
Lemma alert_explicit (i : stat) (current : Z) (header dir : string) :
  get_alert current None header ≠ "DEFAULT" →
  alert i current header dir = get_alert current None header.
Proof.
  intros H. unfold alert, Network.alert.
  destruct (i !! "speed") as [speed|]; [|reflexivity].
  destruct (String.eqb_spec (get_alert current None header) "DEFAULT"); [contradiction|].
  reflexivity.
Qed.

End update_views_facts.

(** C4: in [update_views], run on stats that bear distinct interface
    names and on which the loop runs through, take an interface whose
    rates are there. If the thresholds looked up under its own name give
    "DEFAULT" and its stat has a [speed] other than zero, the decoration
    is the alert of the bit rate against that speed as the maximum; if
    they give "DEFAULT" and [speed] is missing or zero, the decoration
    stays "DEFAULT". This holds for the received and for the sent
    bytes. *)
Theorem update_views_speed_fallback (get_alert : Z -> option pyval -> string -> string)
    (self : Network.plugin) (views : gmap string (gmap string (gmap string pyval))) :
  NoDup (Network.interface_names (Network.stats self)) →
  Forall (Network.ready views) (Network.stats self) →
  ∃ views',
    Network.update_views get_alert self views = Ok views'
    ∧ ∀ i name rx tx,
        i ∈ Network.stats self → Network.measured i = true →
        i !! "interface_name" = Some (VStr name) →
        Network.bps i "bytes_recv_rate_per_sec" = Ok rx →
        Network.bps i "bytes_sent_rate_per_sec" = Ok tx →
        (get_alert rx None (before ":" name +:+ "_rx") = "DEFAULT" →
         Network.decoration views' name "bytes_recv"
         = Some (VStr match i !! "speed" with
                      | Some speed =>
                          if ne_zero speed then get_alert rx (Some speed) "rx"
                          else "DEFAULT"
                      | None => "DEFAULT"
                      end))
        ∧ (get_alert tx None (before ":" name +:+ "_tx") = "DEFAULT" →
           Network.decoration views' name "bytes_sent"
           = Some (VStr match i !! "speed" with
                        | Some speed =>
                            if ne_zero speed then get_alert tx (Some speed) "tx"
                            else "DEFAULT"
                        | None => "DEFAULT"
                        end)).
Proof.
  intros Hnd Hready.
  destruct (update_views_loop_spec get_alert _ views Hnd Hready)
    as (views' & Hloop & _ & _ & Hdeco).
  exists views'. split; [exact Hloop|].
  intros i name rx tx Hin Hm Hname Hrx Htx.
  destruct (Hdeco i name rx tx Hin Hm Hname Hrx Htx) as [Hr Ht].
  split; intros Hdef.
  - rewrite Hr, (alert_default _ _ _ _ _ Hdef). reflexivity.
  - rewrite Ht, (alert_default _ _ _ _ _ Hdef). reflexivity.
Qed.

Lemma update_views_speed_fallback_witness :
  ∃ views',
    Network.update_views Host.get_alert (Network.set_stats Host.net [Host.eth0]) Host.views
    = Ok views'
    ∧ Network.decoration views' "eth0" "bytes_recv" = Some (VStr "WARNING")
    ∧ Network.decoration views' "eth0" "bytes_sent" = Some (VStr "OK").
Proof.
  destruct (update_views_speed_fallback Host.get_alert
              (Network.set_stats Host.net [Host.eth0]) Host.views)
    as (views' & Hup & H).
  - apply NoDup_singleton.
  - apply Forall_cons. split; [|apply Forall_nil_2].
    intros _. exists "eth0".
    split; [vm_compute; reflexivity|].
    split; [vm_compute; exact I|].
    split; [vm_compute; exact I|].
    exists {[ "bytes_recv" := ∅; "bytes_sent" := ∅ ]}.
    split; [vm_compute; reflexivity|].
    split; exists ∅; vm_compute; reflexivity.
  - exists views'. split; [exact Hup|].
    destruct (H Host.eth0 "eth0" 800000000 4000) as [Hr Ht].
    + apply list_elem_of_singleton. reflexivity.
    + vm_compute. reflexivity.
    + vm_compute. reflexivity.
    + vm_compute. reflexivity.
    + vm_compute. reflexivity.
    + split; [exact (Hr eq_refl)|exact (Ht eq_refl)].
Defined.

(** ** msg_curse *)

Lemma bind_ret {A : Type} (m : result A) : m ≫= (fun a => Ok a) = m.
Proof. destruct m; reflexivity. Qed.

Lemma str_app_cons (c : ascii) (s t : string) : String c s +:+ t = String c (s +:+ t).
Proof. reflexivity. Qed.

Lemma str_app_nil_r (s : string) : s +:+ "" = s.
Proof.
  induction s as [|c s IH]; [reflexivity|]. rewrite str_app_cons, IH. reflexivity.
Qed.

Lemma str_length_app (s t : string) :
  String.length (s +:+ t) = (String.length s + String.length t)%nat.
Proof.
  induction s as [|c s IH]; [reflexivity|]. rewrite str_app_cons. simpl.
  rewrite IH. reflexivity.
Qed.

Lemma str_drop_length (n : nat) (s : string) :
  String.length (str_drop n s) = (String.length s - n)%nat.
Proof.
  revert s. induction n as [|n IH]; intros s; simpl.
  - lia.
  - destruct s as [|c s]; [reflexivity|]. simpl. apply IH.
Qed.

(** What [str_drop] keeps is a suffix. *)
Lemma str_drop_suffix (n : nat) (s : string) :
  ∃ pre, s = pre +:+ str_drop n s ∧ String.length pre = Nat.min n (String.length s).
Proof.
  revert s. induction n as [|n IH]; intros s.
  - exists "". split; reflexivity.
  - destruct s as [|c s]; [exists ""; split; reflexivity|].
    destruct (IH s) as (pre & Hpre & Hlen).
    exists (String c pre). simpl. split; [|congruence].
    rewrite str_app_cons, <- Hpre. reflexivity.
Qed.

(** A name longer than a width of two or more is cut to that width: an
    underscore and the end of the name. *)
Lemma cut_long (name : string) (w : Z) :
  2 ≤ w → w < Z.of_nat (String.length name) →
  ∃ pre suf,
    name = pre +:+ suf
    ∧ Z.of_nat (String.length suf) = w - 1
    ∧ Network.cut (VStr name) w = Ok ("_" +:+ suf).
Proof.
  intros Hw Hlong.
  set (k := Z.to_nat (- w + 1 + Z.of_nat (String.length name))).
  destruct (str_drop_suffix k name) as (pre & Hpre & _).
  exists pre, (str_drop k name). split; [exact Hpre|]. split.
  - rewrite str_drop_length. unfold k. lia.
  - unfold Network.cut, len. rewrite bind_ok.
    destruct (Z.ltb_spec w (Z.of_nat (String.length name))) as [_|?]; [|lia].
    unfold slice_from.
    destruct (Z.ltb_spec (- w + 1) 0) as [_|?]; [|lia].
    rewrite Z.max_r by lia. reflexivity.
Qed.

(** A string that fills the width is left as it is. *)
Lemma format_left_exact (s : string) (w : Z) :
  Z.of_nat (String.length s) = w → format_left s w = Ok s.
Proof.
  intros <-. unfold format_left.
  destruct (Z.ltb_spec (Z.of_nat (String.length s)) 0) as [?|_]; [lia|].
  rewrite Z.sub_diag. unfold spaces. change (str_repeat " " (Z.to_nat 0)) with "".
  rewrite str_app_nil_r. reflexivity.
Qed.

Section msg_curse_facts.

Import Network.

Variable get_views : pyval -> string -> string -> result pyval.
Variable sorted_stats : list stat -> list stat.
Variable auto_unit : Z -> string.

Let interface_cells := interface_cells get_views auto_unit.
Let interfaces_cells := interfaces_cells get_views auto_unit.

Lemma interfaces_cells_app (args : args_t) (w : Z) (l1 l2 : list stat) :
  interfaces_cells args w (l1 ++ l2)
  = (c1 ← interfaces_cells args w l1;
     c2 ← interfaces_cells args w l2;
     Ok (c1 ++ c2)).
Proof.
  induction l1 as [|i l1 IH]; simpl.
  - symmetry. apply bind_ret.
  - fold interfaces_cells. rewrite IH.
    destruct (Network.interface_cells get_views auto_unit args w i) as [cs|e];
      [|reflexivity].
    rewrite !bind_ok.
    destruct (interfaces_cells args w l1) as [c1|e]; [|reflexivity].
    rewrite !bind_ok.
    destruct (interfaces_cells args w l2) as [c2|e]; [|reflexivity].
    rewrite !bind_ok. rewrite app_assoc. reflexivity.
Qed.

(** An interface that adds no cell can be dropped from the list. *)
Lemma interfaces_cells_skip (args : args_t) (w : Z) (l1 l2 : list stat) (i : stat) :
  interface_cells args w i = Ok [] →
  interfaces_cells args w (l1 ++ i :: l2) = interfaces_cells args w (l1 ++ l2).
Proof.
  intros Hi. rewrite !interfaces_cells_app. simpl.
  fold interface_cells interfaces_cells. rewrite Hi, bind_ok.
  destruct (interfaces_cells args w l2); reflexivity.
Qed.

Lemma is_down_false_value (i : stat) :
  i !! "is_up" = Some (VBool false) → is_down i = true.
Proof. intros H. unfold is_down. rewrite H. reflexivity. Qed.

End msg_curse_facts.

(** C10: in [msg_curse], an interface whose stat has [is_up] set to
    [False] adds no cell at all (no label, no MAC address, no value), and
    the message is the one of a list that does not contain the interface;
    this does not depend on [hide_no_up], which [msg_curse] never
    reads. *)
Theorem down_interface_skipped
    (get_views : pyval -> string -> string -> result pyval)
    (auto_unit : Z -> string) (i : gmap string pyval) :
  i !! "is_up" = Some (VBool false) →
  (∀ args w, Network.interface_cells get_views auto_unit args w i = Ok [])
  ∧ (∀ args w l1 l2,
       Network.interfaces_cells get_views auto_unit args w (l1 ++ i :: l2)
       = Network.interfaces_cells get_views auto_unit args w (l1 ++ l2))
  ∧ (∀ sorted_stats sorted_stats' self b args max_width l1 l2,
       sorted_stats (Network.stats self) = l1 ++ i :: l2 →
       sorted_stats' (Network.stats self) = l1 ++ l2 →
       Network.msg_curse get_views sorted_stats auto_unit
         (Network.set_hide_no_up self b) args max_width
       = Network.msg_curse get_views sorted_stats' auto_unit self args max_width).
Proof.
  intros Hup.
  assert (Hcells : ∀ args w, Network.interface_cells get_views auto_unit args w i = Ok []).
  { intros args w. unfold Network.interface_cells.
    rewrite (is_down_false_value _ Hup). reflexivity. }
  split; [exact Hcells|]. split.
  - intros args w l1 l2. apply interfaces_cells_skip. apply Hcells.
  - intros sorted_stats sorted_stats' self b args max_width l1 l2 Hs Hs'.
    unfold Network.msg_curse. simpl. rewrite Hs, Hs'.
    destruct (Network.stats self); [reflexivity|].
    destruct (Network.is_disabled self); [reflexivity|].
    destruct max_width as [w|]; [|reflexivity].
    destruct (w =? 0); [reflexivity|].
    destruct (format_left "NETWORK" (w - 12)); [|reflexivity].
    rewrite !bind_ok. destruct args as [args|]; [|reflexivity].
    rewrite !bind_ok. rewrite (interfaces_cells_skip _ _ _ _ _ _ _ (Hcells _ _)).
    reflexivity.
Qed.

Lemma down_interface_skipped_witness :
  (∀ args w, Network.interface_cells Host.get_views Host.auto_unit args w Host.tun0 = Ok [])
  ∧ (∀ args w l1 l2,
       Network.interfaces_cells Host.get_views Host.auto_unit args w (l1 ++ Host.tun0 :: l2)
       = Network.interfaces_cells Host.get_views Host.auto_unit args w (l1 ++ l2))
  ∧ (∀ sorted_stats sorted_stats' self b args max_width l1 l2,
       sorted_stats (Network.stats self) = l1 ++ Host.tun0 :: l2 →
       sorted_stats' (Network.stats self) = l1 ++ l2 →
       Network.msg_curse Host.get_views sorted_stats Host.auto_unit
         (Network.set_hide_no_up self b) args max_width
       = Network.msg_curse Host.get_views sorted_stats' Host.auto_unit self args max_width).
Proof.
  apply (down_interface_skipped Host.get_views Host.auto_unit Host.tun0).
  vm_compute. reflexivity.
Defined.

Section label_facts.

Import Network.

Variable get_views : pyval -> string -> string -> result pyval.
Variable sorted_stats : list stat -> list stat.
Variable auto_unit : Z -> string.

(** The cells of a name that fills the width. *)
Lemma label_cells_exact (i : stat) (name label : string) (w : Z) :
  if_name i = Ok (VStr name) →
  cut (VStr name) w = Ok label →
  Z.of_nat (String.length label) = w →
  label_cells w i = Ok [curse_new_line; curse_add_line label None None None; mac_cell i].
Proof.
  intros Hname Hcut Hlen. unfold label_cells.
  rewrite Hname, bind_ok, Hcut, bind_ok.
  rewrite (format_left_exact _ _ Hlen), bind_ok. reflexivity.
Qed.

(** The message around an interface that is displayed, once the cells of
    the interface and of the others are known. *)
Lemma msg_curse_around (self : plugin) (args : args_t) (max_width w : Z)
    (i : stat) (l1 l2 : list stat) (c1 c2 label values : list cell) :
  stats self ≠ [] → is_disabled self = false →
  max_width - 12 = w → 0 ≤ w →
  sorted_stats (stats self) = l1 ++ i :: l2 →
  is_down i = false →
  all_hidden get_views i hide_zero_fields = Ok false →
  label_cells w i = Ok label →
  value_cells get_views auto_unit args i = Ok values →
  interfaces_cells get_views auto_unit args w l1 = Ok c1 →
  interfaces_cells get_views auto_unit args w l2 = Ok c2 →
  msg_curse get_views sorted_stats auto_unit self (Some args) (Some max_width)
  = Ok (curse_add_line ("NETWORK" +:+ spaces (w - 7)) (Some (VStr "TITLE")) None None
          :: header_cells args ++ c1 ++ (label ++ values) ++ c2).
Proof.
  intros Hne Hen Hw Hpos Hs Hup Hhid Hlab Hval H1 H2.
  unfold msg_curse. destruct (stats self) as [|s0 rest] eqn:Hst; [congruence|].
  rewrite Hen, Hw.
  destruct (Z.eqb_spec max_width 0) as [?|_]; [lia|].
  unfold format_left at 1.
  destruct (Z.ltb_spec w 0) as [?|_]; [lia|].
  rewrite !bind_ok, Hs, interfaces_cells_app, H1, bind_ok.
  simpl Network.interfaces_cells. unfold interface_cells.
  rewrite Hup, Hhid, bind_ok, Hlab, bind_ok, Hval, bind_ok, H2, !bind_ok.
  reflexivity.
Qed.

End label_facts.

(** X21: in [msg_curse] called with a width that
    leaves [name_max_width = max_width - 12] of two or more, the name (or
    alias) of a displayed interface that is longer than [name_max_width]
    becomes an underscore followed by its last [name_max_width - 1]
    characters, which makes exactly [name_max_width] characters; the
    cells of the label are computed without failure, and so is the whole
    message as soon as the values of the interface and the cells of the
    other interfaces are. *)
Theorem long_name_cut
    (get_views : pyval -> string -> string -> result pyval)
    (sorted_stats : list (gmap string pyval) -> list (gmap string pyval))
    (auto_unit : Z -> string)
    (i : gmap string pyval) (name : string) (max_width name_max_width : Z) :
  max_width - 12 = name_max_width →
  2 ≤ name_max_width →
  Network.if_name i = Ok (VStr name) →
  name_max_width < Z.of_nat (String.length name) →
  ∃ pre suf,
    name = pre +:+ suf
    ∧ Z.of_nat (String.length suf) = name_max_width - 1
    ∧ Z.of_nat (String.length ("_" +:+ suf)) = name_max_width
    ∧ Network.label_cells name_max_width i
      = Ok [ curse_new_line;
             curse_add_line ("_" +:+ suf) None None None;
             Network.mac_cell i ]
    ∧ ∀ self args l1 l2 c1 c2 values,
        Network.stats self ≠ [] → Network.is_disabled self = false →
        sorted_stats (Network.stats self) = l1 ++ i :: l2 →
        Network.is_down i = false →
        Network.all_hidden get_views i Network.hide_zero_fields = Ok false →
        Network.value_cells get_views auto_unit args i = Ok values →
        Network.interfaces_cells get_views auto_unit args name_max_width l1 = Ok c1 →
        Network.interfaces_cells get_views auto_unit args name_max_width l2 = Ok c2 →
        Network.msg_curse get_views sorted_stats auto_unit self (Some args) (Some max_width)
        = Ok (curse_add_line ("NETWORK" +:+ spaces (name_max_width - 7))
                (Some (VStr "TITLE")) None None
              :: Network.header_cells args ++ c1
                 ++ ([ curse_new_line;
                       curse_add_line ("_" +:+ suf) None None None;
                       Network.mac_cell i ] ++ values)
                 ++ c2).
Proof.
  intros Hw Hmin Hname Hlong.
  destruct (cut_long name name_max_width Hmin Hlong) as (pre & suf & Hsplit & Hsuf & Hcut).
  assert (Hlen : Z.of_nat (String.length ("_" +:+ suf)) = name_max_width).
  { rewrite str_length_app. simpl String.length. lia. }
  assert (Hlab := label_cells_exact i name _ name_max_width Hname Hcut Hlen).
  exists pre, suf. repeat split; try assumption.
  intros self args l1 l2 c1 c2 values Hne Hen Hs Hup Hhid Hval H1 H2.
  eapply msg_curse_around; eauto. lia.
Qed.

Lemma long_name_cut_witness :
  ∃ pre suf,
    "br-3f9a1c2d7e40" = pre +:+ suf
    ∧ Z.of_nat (String.length suf) = 8 - 1
    ∧ Z.of_nat (String.length ("_" +:+ suf)) = 8
    ∧ Network.label_cells 8 Host.bridge
      = Ok [ curse_new_line;
             curse_add_line ("_" +:+ suf) None None None;
             Network.mac_cell Host.bridge ].
Proof.
  destruct (long_name_cut Host.get_views Host.sorted_stats Host.auto_unit
              Host.bridge "br-3f9a1c2d7e40" 20 8)
    as (pre & suf & H1 & H2 & H3 & H4 & _).
  - reflexivity.
  - lia.
  - vm_compute. reflexivity.
  - vm_compute. reflexivity.
  - exists pre, suf. repeat split; assumption.
Defined.

(** C7: the cut of a long name misses the narrowest widths. With
    [max_width = 13] ([name_max_width = 1]) the slice [[-1 + 1:]] starts at
    index 0 and keeps the whole name, so that the label is longer than the
    name instead of one character wide; with [max_width = 5]
    ([name_max_width = -7]) the title cannot be formatted and the call
    fails with [ValueError], where a width of zero returns an empty
    message. *)
Lemma long_name_cut_narrow :
  Network.label_cells (13 - 12) Host.bridge
  = Ok [ curse_new_line;
         curse_add_line "_br-3f9a1c2d7e40" None None None;
         Network.mac_cell Host.bridge ]
  ∧ Z.of_nat (String.length "_br-3f9a1c2d7e40") ≠ 13 - 12
  ∧ Network.msg_curse Host.get_views Host.sorted_stats Host.auto_unit
      (Network.set_stats Host.net [Host.bridge]) (Some Host.args) (Some 5)
    = Raise ValueError.
Proof.
  split; [vm_compute; reflexivity|]. split; [vm_compute; discriminate|].
  vm_compute. reflexivity.
Qed.

(** * Properties of the rate engine and of the classifier *)

Section engine_facts.

Import Engine.
Local Open Scope Q_scope.

Lemma Qle_bool_false (a b : Q) : b < a → Qle_bool a b = false.
Proof.
  intros H. destruct (Qle_bool a b) eqn:E; [|reflexivity].
  apply Qle_bool_iff in E. exfalso. apply (Qlt_not_le _ _ H E).
Qed.

(** The rate of a counter that did not decrease over a positive time. *)
Lemma compute_rate_available (previous current : Sample) (counter : string) (p c : Z) :
  counters previous !! counter = Some p →
  counters current !! counter = Some c →
  (p ≤ c)%Z →
  0 < timestamp current - timestamp previous →
  compute_rate (Some previous) current counter
  = Some (inject_Z (c - p) / (timestamp current - timestamp previous)).
Proof.
  intros Hp Hc Hle Hel. unfold compute_rate.
  rewrite (Qle_bool_false _ _ Hel), Hp, Hc.
  destruct (Z.ltb_spec c p) as [?|_]; [lia|reflexivity].
Qed.

(** The fields of the network plugin that are marked [rate=True]. *)
Lemma rate_fields_eq : Network.rate_fields = ["bytes_recv"; "bytes_sent"; "bytes_all"].
Proof. reflexivity. Qed.

(** Each of them gets its sibling field, holding its rate when there is
    one. *)
Lemma derive_rates_lookup (previous : option Sample) (current : Sample) (field : string) :
  field ∈ Network.rate_fields →
  derive_rates Network.fields_description previous current ∅ !! (field +:+ "_rate_per_sec")
  = compute_rate previous current field.
Proof.
  rewrite rate_fields_eq. intros Hin.
  unfold Network.fields_description. simpl derive_rates.
  repeat (apply elem_of_cons in Hin as [->|Hin]);
    [| | |apply elem_of_nil in Hin; contradiction];
    destruct (compute_rate previous current "bytes_recv");
    destruct (compute_rate previous current "bytes_sent");
    destruct (compute_rate previous current "bytes_all");
    repeat first
      [ reflexivity
      | rewrite lookup_insert_eq
      | rewrite lookup_insert_ne by discriminate
      | rewrite lookup_empty ].
Qed.

End engine_facts.

(** C2: for a counter that is not negative and did not decrease between
    the previous and the current sample, and a positive elapsed time,
    [compute_rate] returns exactly the difference of the two values over
    the elapsed seconds; the fields of the network plugin marked
    [rate=True] ([bytes_recv], [bytes_sent] and [bytes_all]) each derive
    their [_rate_per_sec] sibling by that formula. *)
Theorem compute_rate_exact (previous current : Engine.Sample) (counter : string) (p c : Z) :
  Engine.counters previous !! counter = Some p →
  Engine.counters current !! counter = Some c →
  0 ≤ p → p ≤ c →
  (0 < Engine.timestamp current - Engine.timestamp previous)%Q →
  Engine.compute_rate (Some previous) current counter
  = Some (inject_Z (c - p) / (Engine.timestamp current - Engine.timestamp previous))%Q
  ∧ Network.rate_fields = ["bytes_recv"; "bytes_sent"; "bytes_all"]
  ∧ (counter ∈ Network.rate_fields →
     Engine.derive_rates Network.fields_description (Some previous) current ∅
       !! (counter +:+ "_rate_per_sec")
     = Some (inject_Z (c - p) / (Engine.timestamp current - Engine.timestamp previous))%Q).
Proof.
  intros Hp Hc _ Hle Hel.
  assert (Hrate := compute_rate_available previous current counter p c Hp Hc Hle Hel).
  split; [exact Hrate|]. split; [apply rate_fields_eq|].
  intros Hin. rewrite derive_rates_lookup by exact Hin. exact Hrate.
Qed.

Lemma compute_rate_exact_witness :
  Engine.compute_rate (Some Host.previous) Host.current "bytes_recv"
  = Some (inject_Z (1500 - 1000)
          / (Engine.timestamp Host.current - Engine.timestamp Host.previous))%Q
  ∧ Network.rate_fields = ["bytes_recv"; "bytes_sent"; "bytes_all"]
  ∧ ("bytes_recv" ∈ Network.rate_fields →
     Engine.derive_rates Network.fields_description (Some Host.previous) Host.current ∅
       !! ("bytes_recv" +:+ "_rate_per_sec")
     = Some (inject_Z (1500 - 1000)
             / (Engine.timestamp Host.current - Engine.timestamp Host.previous))%Q).
Proof.
  apply (compute_rate_exact Host.previous Host.current "bytes_recv" 1000 1500).
  - vm_compute. reflexivity.
  - vm_compute. reflexivity.
  - lia.
  - lia.
  - vm_compute. reflexivity.
Defined.

Section classify_facts.

Import Engine.
Local Open Scope Q_scope.

Lemma Qle_bool_cases (a b : Q) :
  (Qle_bool a b = true ∧ a <= b) ∨ (Qle_bool a b = false ∧ b < a).
Proof.
  destruct (Qle_bool a b) eqn:E.
  - left. split; [reflexivity|]. apply Qle_bool_iff. exact E.
  - right. split; [reflexivity|]. apply Qnot_le_lt. intros H.
    apply Qle_bool_iff in H. congruence.
Qed.

(** The severity that [compare] gives, bound by bound. *)
Lemma compare_spec (value : Q) (t : ThresholdSet) :
  match compare value t with
  | CRITICAL => critical_bound t <= value
  | WARNING => warning_bound t <= value ∧ value < critical_bound t
  | CAREFUL =>
      careful_bound t <= value ∧ value < warning_bound t ∧ value < critical_bound t
  | DEFAULT =>
      value < careful_bound t ∧ value < warning_bound t ∧ value < critical_bound t
  end.
Proof.
  unfold compare.
  destruct (Qle_bool_cases (critical_bound t) value) as [[-> ?]|[-> ?]]; [assumption|].
  destruct (Qle_bool_cases (warning_bound t) value) as [[-> ?]|[-> ?]]; [auto|].
  destruct (Qle_bool_cases (careful_bound t) value) as [[-> ?]|[-> ?]]; auto.
Qed.

(** With explicit thresholds, neither the percentages nor the maximum are
    looked at. *)
Lemma classify_explicit (pct : ThresholdSet) (value : Q) (t : ThresholdSet)
    (maximum : option Q) :
  classify pct value (Some t) maximum = compare value t.
Proof. reflexivity. Qed.

End classify_facts.

(** C3: with explicit thresholds whose bounds increase strictly,
    [classify] returns the severity of the highest bound that the value
    reaches, the bounds being inclusive: [critical] from [critical_bound]
    on, and at that bound itself; [warning] from [warning_bound] up to,
    but not including, [critical_bound]; [careful] likewise; [default]
    below [careful_bound]. *)
Theorem classify_inclusive (pct : Engine.ThresholdSet) (value : Q)
    (t : Engine.ThresholdSet) (maximum : option Q) :
  (Engine.careful_bound t < Engine.warning_bound t)%Q →
  (Engine.warning_bound t < Engine.critical_bound t)%Q →
  ((Engine.critical_bound t <= value)%Q →
   Engine.classify pct value (Some t) maximum = Engine.CRITICAL)
  ∧ Engine.classify pct (Engine.critical_bound t) (Some t) maximum = Engine.CRITICAL
  ∧ ((Engine.warning_bound t <= value)%Q → (value < Engine.critical_bound t)%Q →
     Engine.classify pct value (Some t) maximum = Engine.WARNING)
  ∧ ((Engine.careful_bound t <= value)%Q → (value < Engine.warning_bound t)%Q →
     Engine.classify pct value (Some t) maximum = Engine.CAREFUL)
  ∧ ((value < Engine.careful_bound t)%Q →
     Engine.classify pct value (Some t) maximum = Engine.DEFAULT)
  ∧ (∀ b, Engine.bound t (Engine.classify pct value (Some t) maximum) = Some b →
          (b <= value)%Q)
  ∧ (∀ s b, Engine.bound t s = Some b → (b <= value)%Q →
            (Engine.rank s ≤ Engine.rank (Engine.classify pct value (Some t) maximum))%nat).
Proof.
  intros H1 H2. rewrite !classify_explicit.
  assert (Hv := compare_spec value t).
  assert (Hc := compare_spec (Engine.critical_bound t) t).
  repeat split.
  - intros H. destruct (Engine.compare value t); [lra|lra|lra|reflexivity].
  - destruct (Engine.compare (Engine.critical_bound t) t); [lra|lra|lra|reflexivity].
  - intros Ha Hb. destruct (Engine.compare value t); [lra|lra|reflexivity|lra].
  - intros Ha Hb. destruct (Engine.compare value t); [lra|reflexivity|lra|lra].
  - intros Ha. destruct (Engine.compare value t); [reflexivity|lra|lra|lra].
  - intros b Hb. destruct (Engine.compare value t); simpl in Hb;
      [discriminate| | |]; injection Hb as <-; lra.
  - intros s b Hb Hle.
    destruct s; simpl in Hb; [discriminate| | |]; injection Hb as <-;
      destruct (Engine.compare value t); simpl; lia || lra.
Qed.

Lemma classify_inclusive_witness :
  Engine.classify Host.percentages (inject_Z (50 * 1024 * 1024))
    (Some Host.disk_thresholds) None = Engine.CRITICAL
  ∧ Engine.classify Host.percentages (inject_Z (49 * 1024 * 1024))
      (Some Host.disk_thresholds) None = Engine.WARNING
  ∧ Engine.classify Host.percentages (inject_Z (60 * 1024 * 1024))
      (Some Host.disk_thresholds) None = Engine.CRITICAL.
Proof.
  assert (Ha : (Engine.careful_bound Host.disk_thresholds
                < Engine.warning_bound Host.disk_thresholds)%Q) by reflexivity.
  assert (Hb : (Engine.warning_bound Host.disk_thresholds
                < Engine.critical_bound Host.disk_thresholds)%Q) by reflexivity.
  split; [|split].
  - exact (proj1 (proj2 (classify_inclusive Host.percentages 0%Q
                           Host.disk_thresholds None Ha Hb))).
  - destruct (classify_inclusive Host.percentages (inject_Z (49 * 1024 * 1024))
                Host.disk_thresholds None Ha Hb) as (_ & _ & Hwarn & _).
    apply Hwarn; reflexivity || discriminate.
  - destruct (classify_inclusive Host.percentages (inject_Z (60 * 1024 * 1024))
                Host.disk_thresholds None Ha Hb) as (Hcrit & _).
    apply Hcrit. discriminate.
Defined.

(** * Further properties of the NVMe sampler *)

Section nvme_parse_facts.

Import NVMe.

Lemma index_raise {A : Type} (l : list A) (i : Z) (e : exn) :
  index l i = Raise e → e = IndexError.
Proof.
  unfold index.
  destruct ((_ <? 0) || (_ <=? _)); [congruence|].
  destruct (l !! _); congruence.
Qed.

Lemma int_of_str_raise (s : string) (e : exn) :
  int_of_str s = Raise e → e = ValueError.
Proof.
  unfold int_of_str.
  destruct (match strip s with
            | EmptyString => (false, strip s)
            | String c rest =>
                if Ascii.eqb c "-" then (true, rest)
                else if Ascii.eqb c "+" then (false, rest) else (false, strip s)
            end) as [neg body].
  destruct (int_digits 0 false body); congruence.
Qed.

(** The token read at position [pos] of a line, as a number. *)
Lemma field_raise (line : string) (pos : Z) (f : string -> string) (k : string)
    (e : exn) :
  (tok ← index (split line) pos; n ← int_of_str (f tok); Ok (Some (k, n)))
  = Raise e →
  e = ValueError ∨ e = IndexError.
Proof.
  destruct (index (split line) pos) as [tok|e'] eqn:Hi; simpl.
  - destruct (int_of_str (f tok)) as [n|e''] eqn:Hn; simpl; [discriminate|].
    intros [= <-]. left. eapply int_of_str_raise. exact Hn.
  - intros [= <-]. right. eapply index_raise. exact Hi.
Qed.

Lemma parse_line_raise (line : string) (e : exn) :
  parse_line line = Raise e → e = ValueError ∨ e = IndexError.
Proof.
  unfold parse_line.
  destruct (contains "Temperature:" line);
    [apply (field_raise line (-2) (fun t => t))|].
  destruct (contains "Power Cycles:" line);
    [apply (field_raise line (-1) (fun t => t))|].
  destruct (contains "Percentage Used:" line);
    [apply (field_raise line (-1) (remove_char "%"))|].
  discriminate.
Qed.

Lemma parse_lines_raise (lines : list string) :
  ∀ d e, parse_lines d lines = Raise e → e = ValueError ∨ e = IndexError.
Proof.
  induction lines as [|line rest IH]; intros d e; simpl; [discriminate|].
  destruct (parse_line line) as [[[k n]|]|e'] eqn:Hl; simpl; eauto.
  intros [= <-]. eapply parse_line_raise. exact Hl.
Qed.

Lemma parse_line_unlabelled (line : string) :
  unlabelled line = true → parse_line line = Ok None.
Proof.
  unfold unlabelled, parse_line. intros H.
  apply andb_true_iff in H as [H H3]. apply andb_true_iff in H as [H1 H2].
  apply negb_true_iff in H1, H2, H3. rewrite H1, H2, H3. reflexivity.
Qed.

Lemma parse_lines_unlabelled (lines : list string) (d : gmap string Z) :
  Forall (fun line => unlabelled line = true) lines → parse_lines d lines = Ok d.
Proof.
  induction 1 as [|line rest Hl _ IH]; simpl; [reflexivity|].
  rewrite (parse_line_unlabelled _ Hl). exact IH.
Qed.

(** The loop over two runs of lines is the loop over the first, then over
    the second. *)
Lemma parse_lines_app (l1 l2 : list string) :
  ∀ d, parse_lines d (l1 ++ l2) = parse_lines d l1 ≫= fun d' => parse_lines d' l2.
Proof.
  induction l1 as [|line rest IH]; intros d; simpl; [reflexivity|].
  destruct (parse_line line) as [[[k n]|]|e]; simpl; auto.
Qed.

(** A line without the temperature label sets another field, if any. *)
Lemma parse_line_other (line k : string) (n : Z) :
  contains "Temperature:" line = false →
  parse_line line = Ok (Some (k, n)) →
  k = "power_cycles" ∨ k = "percentage_used".
Proof.
  unfold parse_line. intros ->.
  destruct (contains "Power Cycles:" line).
  - destruct (index (split line) (-1)) as [tok|]; simpl; [|discriminate].
    destruct (int_of_str tok); simpl; [|discriminate]. intros [= <- _]. auto.
  - destruct (contains "Percentage Used:" line); [|discriminate].
    destruct (index (split line) (-1)) as [tok|]; simpl; [|discriminate].
    destruct (int_of_str _); simpl; [|discriminate]. intros [= <- _]. auto.
Qed.

(** Lines without the temperature label leave the temperature as it is. *)
Lemma parse_lines_keep_temperature (lines : list string) :
  Forall (fun line => contains "Temperature:" line = false) lines →
  ∀ d d', parse_lines d lines = Ok d' → d' !! "temperature" = d !! "temperature".
Proof.
  induction 1 as [|line rest Hl _ IH]; intros d d'; simpl.
  - intros [= <-]. reflexivity.
  - destruct (parse_line line) as [[[k n]|]|e] eqn:Hp; simpl; [| |discriminate].
    + intros H. rewrite (IH _ _ H).
      destruct (parse_line_other _ _ _ Hl Hp) as [-> | ->];
        apply lookup_insert_ne; discriminate.
    + apply IH.
Qed.

(** The loop never removes a field. *)
Lemma parse_lines_grow (lines : list string) :
  ∀ d d' k, parse_lines d lines = Ok d' → is_Some (d !! k) → is_Some (d' !! k).
Proof.
  induction lines as [|line rest IH]; intros d d' k; simpl.
  - intros [= <-]. auto.
  - destruct (parse_line line) as [[[k' n]|]|e]; simpl; [| |discriminate].
    + intros H Hk. apply (IH _ _ _ H).
      destruct (decide (k' = k)) as [->|Hne].
      * rewrite lookup_insert_eq. eauto.
      * rewrite lookup_insert_ne by exact Hne. exact Hk.
    + apply IH.
Qed.

(** A labelled line that is read sets a field. *)
Lemma parse_line_labelled (line : string) (f : option (string * Z)) :
  unlabelled line = false → parse_line line = Ok f → is_Some f.
Proof.
  unfold unlabelled, parse_line. intros Hl.
  destruct (contains "Temperature:" line).
  { destruct (index (split line) (-2)); simpl; [|discriminate].
    destruct (int_of_str _); simpl; [|discriminate]. intros [= <-]. eauto. }
  destruct (contains "Power Cycles:" line).
  { destruct (index (split line) (-1)); simpl; [|discriminate].
    destruct (int_of_str _); simpl; [|discriminate]. intros [= <-]. eauto. }
  destruct (contains "Percentage Used:" line); [|discriminate].
  destruct (index (split line) (-1)); simpl; [|discriminate].
  destruct (int_of_str _); simpl; [|discriminate]. intros [= <-]. eauto.
Qed.

Lemma parse_lines_nonempty (lines : list string) :
  ∀ d d', parse_lines d lines = Ok d' →
          d ≠ ∅ ∨ Exists (fun line => unlabelled line = false) lines →
          d' ≠ ∅.
Proof.
  induction lines as [|line rest IH]; intros d d'; simpl.
  - intros [= <-] [H|H]; [exact H|inversion H].
  - destruct (parse_line line) as [[[k n]|]|e] eqn:Hp; simpl; [| |discriminate].
    + intros H _. apply (IH _ _ H). left. apply insert_non_empty.
    + intros H [Hd|Hex]; [apply (IH _ _ H); left; exact Hd|].
      apply Exists_cons in Hex as [Hl|Hex]; [|apply (IH _ _ H); right; exact Hex].
      destruct (parse_line_labelled _ _ Hl Hp) as [? [=]].
Qed.

End nvme_parse_facts.

(** X1: a tool output none of whose lines bears one of the three labels
    is no data: [get] returns the empty mapping, [update] leaves the stats
    empty, and [msg_curse] then displays nothing. *)
Theorem unlabelled_output_no_data
    (curse_add_line_kw : string -> option Z -> option string -> result cell)
    (self : NVMe.plugin) (output : string) :
  Forall (fun line => NVMe.unlabelled line = true) (splitlines output) →
  NVMe.get (Ok output) = Ok ∅
  ∧ ∃ self',
      NVMe.update self (Ok output) = Ok self'
      ∧ NVMe.stats self' = []
      ∧ ∀ max_width, NVMe.msg_curse curse_add_line_kw self' max_width = Ok [].
Proof.
  intros H.
  assert (Hget : NVMe.get (Ok output) = Ok ∅).
  { apply (parse_lines_unlabelled _ ∅ H). }
  split; [exact Hget|].
  exists {| NVMe.stats := []; NVMe.is_disabled := NVMe.is_disabled self |}.
  split; [|split; [reflexivity|intros; reflexivity]].
  unfold NVMe.update. rewrite Hget. reflexivity.
Qed.

Lemma unlabelled_output_no_data_witness :
  NVMe.get (Ok Host.other_output) = Ok ∅
  ∧ ∃ self',
      NVMe.update Host.drive (Ok Host.other_output) = Ok self'
      ∧ NVMe.stats self' = []
      ∧ ∀ max_width, NVMe.msg_curse Host.curse_add_line_kw self' max_width = Ok [].
Proof.
  apply (unlabelled_output_no_data Host.curse_add_line_kw Host.drive Host.other_output).
  vm_compute. repeat constructor.
Defined.

(** X2: the exceptions of [get]. It never raises [CalledProcessError];
    what it raises is either the exception of the call of the tool itself,
    or, when the tool has written its output, a [ValueError] or an
    [IndexError] of the parsing. *)
Theorem get_raises_only (run : result string) (e : exn) :
  NVMe.get run = Raise e →
  e ≠ CalledProcessError
  ∧ (run = Raise e
     ∨ ∃ output, run = Ok output ∧ (e = ValueError ∨ e = IndexError)).
Proof.
  destruct run as [output|e']; simpl.
  - intros H. apply parse_lines_raise in H.
    split; [destruct H as [-> | ->]; discriminate|]. right. eauto.
  - destruct e'; intros [= <-]; (split; [discriminate|left; reflexivity]).
Qed.

Lemma get_raises_only_witness :
  ValueError ≠ CalledProcessError
  ∧ (Ok "Temperature: N/A" = Raise ValueError
     ∨ ∃ output, Ok "Temperature: N/A" = Ok output
                 ∧ (ValueError = ValueError ∨ ValueError = IndexError)).
Proof.
  apply (get_raises_only (Ok "Temperature: N/A") ValueError).
  vm_compute. reflexivity.
Defined.

(** X3: when several lines bear the temperature label, the mapping that
    [parse_nvme_output] returns holds the temperature of the last one (the
    number at the last position but one of that line). *)
Theorem last_temperature_wins (output : string) (pre post : list string)
    (line : string) (d : gmap string Z) :
  splitlines output = pre ++ line :: post →
  contains "Temperature:" line = true →
  Forall (fun l => contains "Temperature:" l = false) post →
  NVMe.parse_nvme_output output = Ok d →
  ∃ tok t,
    index (split line) (-2) = Ok tok
    ∧ int_of_str tok = Ok t
    ∧ d !! "temperature" = Some t.
Proof.
  intros Hsplit Hline Hpost H. unfold NVMe.parse_nvme_output in H.
  rewrite Hsplit, parse_lines_app in H.
  apply bind_ok_inv in H as (d1 & _ & H). simpl in H.
  unfold NVMe.parse_line in H. rewrite Hline in H.
  destruct (index (split line) (-2)) as [tok|] eqn:Htok; simpl in H; [|discriminate].
  destruct (int_of_str tok) as [t|] eqn:Ht; simpl in H; [|discriminate].
  exists tok, t. split; [reflexivity|]. split; [exact Ht|].
  rewrite (parse_lines_keep_temperature _ Hpost _ _ H). apply lookup_insert_eq.
Qed.

Lemma last_temperature_wins_witness :
  ∃ d, NVMe.parse_nvme_output Host.twice_output = Ok d
       ∧ d !! "temperature" = Some 41.
Proof.
  destruct (NVMe.parse_nvme_output Host.twice_output) as [d|e] eqn:E;
    [|vm_compute in E; discriminate E].
  exists d. split; [reflexivity|].
  destruct (last_temperature_wins Host.twice_output
              [ "Temperature:                        35 Celsius";
                "Power Cycles:                       807" ]
              [ "Percentage Used:                    3%" ]
              "Temperature:                        41 Celsius" d)
    as (tok & t & Htok & Ht & Hd).
  - vm_compute. reflexivity.
  - vm_compute. reflexivity.
  - repeat constructor.
  - exact E.
  - vm_compute in Htok. injection Htok as <-.
    vm_compute in Ht. injection Ht as <-. exact Hd.
Defined.

(** X4: an output that is read without error, with a labelled line but
    with no line of the temperature, makes [update] raise [KeyError]: the
    mapping is not empty, and its ['temperature'] is read. *)
Theorem update_without_temperature (self : NVMe.plugin) (output : string)
    (d : gmap string Z) :
  NVMe.parse_nvme_output output = Ok d →
  Forall (fun l => contains "Temperature:" l = false) (splitlines output) →
  Exists (fun l => NVMe.unlabelled l = false) (splitlines output) →
  NVMe.update self (Ok output) = Raise KeyError.
Proof.
  intros H Hno Hex. unfold NVMe.update. simpl. rewrite H. simpl.
  assert (Hne : d ≠ ∅).
  { apply (parse_lines_nonempty _ _ _ H). right. exact Hex. }
  assert (Ht : d !! "temperature" = None).
  { rewrite (parse_lines_keep_temperature _ Hno _ _ H). apply lookup_empty. }
  destruct (decide (d = ∅)); [contradiction|].
  unfold getitem. rewrite Ht. reflexivity.
Qed.

Lemma update_without_temperature_witness :
  NVMe.update Host.drive (Ok Host.cycles_output) = Raise KeyError.
Proof.
  destruct (NVMe.parse_nvme_output Host.cycles_output) as [d|e] eqn:E;
    [|vm_compute in E; discriminate E].
  apply (update_without_temperature Host.drive Host.cycles_output d E).
  - vm_compute. repeat constructor.
  - vm_compute. apply Exists_cons_tl. apply Exists_cons_hd. reflexivity.
Defined.

(** X5: when the tool's output gives a temperature [t] and the plugin is
    enabled, [update] leaves exactly one row. [msg_curse] called with a
    width other than zero then calls [curse_add_line] twice with a
    keyword, first with the label "NVMe Temp" and the width
    [max_width - 14], then with the value followed by " C" and the
    alignment to the right: it raises what the first call raises,
    otherwise what the second raises, and otherwise returns the title, a
    new line and the two cells. With a base class whose method takes no
    such keyword, that is the [TypeError] of the first call. *)
Theorem temperature_displayed
    (curse_add_line_kw : string -> option Z -> option string -> result cell)
    (self : NVMe.plugin) (run : result string)
    (d : gmap string Z) (t max_width : Z) :
  NVMe.get run = Ok d →
  d !! "temperature" = Some t →
  NVMe.is_disabled self = false →
  max_width ≠ 0 →
  ∃ self',
    NVMe.update self run = Ok self'
    ∧ NVMe.stats self' = [NVMe.nvme_stat t]
    ∧ NVMe.msg_curse curse_add_line_kw self' (Some max_width)
      = (label_cell ← curse_add_line_kw "NVMe Temp" (Some (max_width - 14)) None;
         value_cell ← curse_add_line_kw (pretty t +:+ " C") None (Some "right");
         Ok [ curse_add_line "NVMe Stats" (Some (VStr "TITLE")) None None;
              curse_new_line; label_cell; value_cell ]).
Proof.
  intros Hget Ht Hen Hw.
  exists {| NVMe.stats := [NVMe.nvme_stat t]; NVMe.is_disabled := NVMe.is_disabled self |}.
  split; [|split; [reflexivity|]].
  - unfold NVMe.update. rewrite Hget, bind_ok.
    destruct (decide (d = ∅)) as [->|_]; [rewrite lookup_empty in Ht; discriminate|].
    rewrite (proj2 (getitem_ok _ _ _) Ht). reflexivity.
  - unfold NVMe.msg_curse. simpl NVMe.stats. simpl NVMe.is_disabled. rewrite Hen.
    destruct (Z.eqb_spec max_width 0) as [?|_]; [contradiction|].
    simpl NVMe.rows. unfold NVMe.row.
    rewrite (proj2 (getitem_ok (NVMe.nvme_stat t) "label" (VStr "NVMe Temp")) eq_refl).
    rewrite !bind_ok. simpl str.
    destruct (curse_add_line_kw "NVMe Temp" (Some (max_width - 14)) None)
      as [label_cell|e]; [|reflexivity].
    rewrite !bind_ok.
    rewrite (proj2 (getitem_ok (NVMe.nvme_stat t) "value" (VInt t)) eq_refl), bind_ok.
    rewrite (proj2 (getitem_ok (NVMe.nvme_stat t) "unit" (VStr "C")) eq_refl), bind_ok.
    simpl str. change (pretty t +:+ " " +:+ "C") with (pretty t +:+ " C").
    destruct (curse_add_line_kw (pretty t +:+ " C") None (Some "right"))
      as [value_cell|e]; reflexivity.
Qed.

Lemma temperature_displayed_witness :
  ∃ self',
    NVMe.update Host.drive (Ok Host.smart_output) = Ok self'
    ∧ NVMe.stats self' = [NVMe.nvme_stat 35]
    ∧ NVMe.msg_curse Host.curse_add_line_kw self' (Some 34) = Raise TypeError.
Proof.
  destruct (NVMe.get (Ok Host.smart_output)) as [d|e] eqn:E;
    [|vm_compute in E; discriminate E].
  destruct (temperature_displayed Host.curse_add_line_kw Host.drive
              (Ok Host.smart_output) d 35 34 E) as (self' & Hup & Hst & Hmsg).
  - vm_compute in E. injection E as <-. vm_compute. reflexivity.
  - reflexivity.
  - discriminate.
  - exists self'. split; [exact Hup|]. split; [exact Hst|]. exact Hmsg.
Defined.

(** * The stand-alone check against the plugin *)

Section script_facts.

Import NVMe Script.

(** Lines without the temperature label are passed over. *)
Lemma check_lines_skip (pre rest : list string) :
  Forall (fun l => contains "Temperature:" l = false) pre →
  check_lines (pre ++ rest) = check_lines rest.
Proof.
  induction 1 as [|line pre Hl _ IH]; simpl; [reflexivity|].
  rewrite Hl. exact IH.
Qed.

(** Where the plugin reads all the lines, the script reads them up to the
    first temperature. *)
Lemma check_lines_of_parse (lines : list string) :
  ∀ acc d,
    parse_lines acc lines = Ok d →
    ∃ r, check_lines lines = Ok r
         ∧ (r = None → d !! "temperature" = acc !! "temperature")
         ∧ (r ≠ None → is_Some (d !! "temperature")).
Proof.
  induction lines as [|line rest IH]; intros acc d H; simpl in *.
  - injection H as <-. exists None. split; [reflexivity|]. split; [reflexivity|congruence].
  - apply bind_ok_inv in H as (f & Hf & H).
    destruct (contains "Temperature:" line) eqn:Hl.
    + unfold parse_line in Hf. rewrite Hl in Hf.
      destruct (index (split line) (-2)) as [tok|]; simpl in Hf |- *; [|discriminate].
      destruct (int_of_str tok) as [t|]; simpl in Hf |- *; [|discriminate].
      injection Hf as <-. exists (Some t). split; [reflexivity|].
      split; [discriminate|]. intros _.
      apply (parse_lines_grow _ _ _ _ H). rewrite lookup_insert_eq. eauto.
    + destruct f as [[k n]|].
      * destruct (IH _ _ H) as (r & Hr & Hnone & Hsome).
        exists r. split; [exact Hr|]. split; [|exact Hsome].
        intros Hn. rewrite (Hnone Hn).
        destruct (parse_line_other _ _ _ Hl Hf) as [-> | ->];
          apply lookup_insert_ne; discriminate.
      * apply IH. exact H.
Qed.

End script_facts.

(** X6: [check_nvme_temperature] returns the temperature of the first
    line that bears the label, whatever follows that line: the lines after
    it are not read. *)
Theorem check_returns_first (output : string) (pre post : list string) (line : string) :
  splitlines output = pre ++ line :: post →
  Forall (fun l => contains "Temperature:" l = false) pre →
  contains "Temperature:" line = true →
  Script.check_nvme_temperature (Ok output)
  = (tok ← index (split line) (-2);
     temperature ← int_of_str tok;
     Ok (Some temperature)).
Proof.
  intros Hsplit Hpre Hline. unfold Script.check_nvme_temperature.
  rewrite Hsplit, (check_lines_skip _ _ Hpre). simpl. rewrite Hline. reflexivity.
Qed.

Lemma check_returns_first_witness :
  Script.check_nvme_temperature (Ok Host.twice_output) = Ok (Some 35).
Proof.
  rewrite (check_returns_first Host.twice_output []
             [ "Power Cycles:                       807";
               "Temperature:                        41 Celsius";
               "Percentage Used:                    3%" ]
             "Temperature:                        35 Celsius").
  - vm_compute. reflexivity.
  - vm_compute. reflexivity.
  - constructor.
  - vm_compute. reflexivity.
Defined.

(** X7: whenever the sampler of the plugin reads the output of the tool
    without error, the stand-alone check does too, and it finds a
    temperature exactly when the mapping of the plugin holds one. *)
Theorem check_agrees_with_get (output : string) (d : gmap string Z) :
  NVMe.get (Ok output) = Ok d →
  ∃ r, Script.check_nvme_temperature (Ok output) = Ok r
       ∧ (r = None ↔ d !! "temperature" = None).
Proof.
  intros H. destruct (check_lines_of_parse _ _ _ H) as (r & Hr & Hnone & Hsome).
  exists r. split; [exact Hr|]. split.
  - intros Hn. rewrite (Hnone Hn). apply lookup_empty.
  - intros Hd. destruct r as [t|]; [|reflexivity].
    destruct Hsome as [x Hx]; [discriminate|]. congruence.
Qed.

Lemma check_agrees_with_get_witness :
  ∃ r, Script.check_nvme_temperature (Ok Host.smart_output) = Ok r
       ∧ (r = None ↔ ({[ "temperature" := 35; "percentage_used" := 3;
                          "power_cycles" := 807 ]} : gmap string Z)
                       !! "temperature" = None).
Proof.
  apply (check_agrees_with_get Host.smart_output).
  vm_compute. reflexivity.
Defined.

(** * Further properties of the network plugin *)

Section update_local_more.

Import Network.

Variable is_display : string -> bool.
Variable filter_stats : stat -> stat.
Variable get_mac_address : string -> pyval.
Variable has_alias : string -> pyval.

Let interface_stat := interface_stat filter_stats get_mac_address has_alias.
Let update_local_loop := update_local_loop is_display filter_stats get_mac_address has_alias.
Let kept := kept is_display.

(** The fields that name the interface in its stat. *)
Lemma interface_stat_identity (name : string) (counters status i : stat) :
  interface_stat name counters status = Ok i →
  i !! "interface_name" = Some (VStr name)
  ∧ i !! "key" = Some (VStr "interface_name")
  ∧ i !! "alias" = Some (has_alias name)
  ∧ i !! "mac_address"
    = Some (if truthy (get_mac_address name) then get_mac_address name
            else VStr "Unknown").
Proof.
  unfold interface_stat, Network.interface_stat. intros H.
  apply bind_ok_inv in H as (sent & _ & H).
  apply bind_ok_inv in H as (recv & _ & H).
  apply bind_ok_inv in H as (all & _ & H).
  apply bind_ok_inv in H as (speed & _ & H).
  apply bind_ok_inv in H as (bps & _ & H).
  injection H as <-.
  repeat split.
  - rewrite !(lookup_insert_ne _ _ "interface_name") by discriminate.
    apply lookup_insert_eq.
  - rewrite !(lookup_insert_ne _ _ "key") by discriminate. apply lookup_insert_eq.
  - rewrite !(lookup_insert_ne _ _ "alias") by discriminate. apply lookup_insert_eq.
  - rewrite !(lookup_insert_ne _ _ "mac_address") by discriminate.
    apply lookup_insert_eq.
Qed.

Lemma update_local_loop_names (net_status : gmap string stat)
    (items : list (string * stat)) :
  ∀ stats l,
    update_local_loop net_status stats items = Ok l →
    interface_names l
    = interface_names stats
      ++ ((fun n => Some (VStr n)) <$> kept net_status items).
Proof.
  induction items as [|[name counters] rest IH]; intros stats l H; simpl in *.
  - injection H as <-. rewrite app_nil_r. reflexivity.
  - destruct (is_display name); simpl in *; [|eauto].
    destruct (net_status !! name) as [status|] eqn:Hst.
    + rewrite bool_decide_true by eauto.
      apply bind_ok_inv in H as (i & Hi & H).
      rewrite (IH _ _ H). unfold interface_names. rewrite fmap_app, <- app_assoc.
      simpl. apply interface_stat_identity in Hi as (-> & _). reflexivity.
    + rewrite bool_decide_false by (intros [? ?]; discriminate). eauto.
Qed.

End update_local_more.

(** X8: when psutil answers, the stats that the function [update_local]
    builds (what the decorator is given) are those of the interfaces to
    display that have a status, in the order of the counters: their
    [interface_name] fields are these names, and each stat names
    ["interface_name"] as its key. *)
Theorem update_local_interfaces (is_display : string -> bool)
    (filter_stats : gmap string pyval -> gmap string pyval)
    (get_mac_address has_alias : string -> pyval)
    (self : Network.plugin) (d : Network.psutil_data) (l : list (gmap string pyval)) :
  Network.update_local_body is_display filter_stats get_mac_address has_alias self (Ok d)
  = Ok l →
  Network.interface_names l
  = ((fun n => Some (VStr n)) <$>
       Network.kept is_display (Network.net_if_stats d) (Network.net_io_counters d))
  ∧ Forall (fun i : gmap string pyval => i !! "key" = Some (VStr "interface_name")) l.
Proof.
  intros H. split.
  - apply update_local_loop_names in H. exact H.
  - apply (update_local_inv is_display filter_stats get_mac_address has_alias
             _ self (Ok d) l); [|left; exact I|exact H].
    intros name counters status i Hi.
    apply interface_stat_identity in Hi as (_ & Hk & _). exact Hk.
Qed.

Lemma update_local_interfaces_witness :
  match Network.update_local_body Host.show Host.filter_stats Host.get_mac_address
          Host.has_alias Host.net (Ok Host.psutil_three) with
  | Ok l =>
      Network.interface_names l = [Some (VStr "eth0")]
      ∧ Forall (fun i : gmap string pyval => i !! "key" = Some (VStr "interface_name")) l
  | Raise _ => False
  end.
Proof.
  destruct (Network.update_local_body Host.show Host.filter_stats Host.get_mac_address
              Host.has_alias Host.net (Ok Host.psutil_three)) as [l|e] eqn:E.
  - exact (update_local_interfaces _ _ _ _ _ _ _ E).
  - vm_compute in E. discriminate E.
Defined.

Section update_views_more.

Import Network.

Variable get_alert : Z -> option pyval -> string -> string.

Let alert := alert get_alert.
Let update_views_item := update_views_item get_alert.
Let update_views_loop := update_views_loop get_alert.

(** The alert is the one looked up under the name of the interface as soon
    as there is no speed to fall back on. *)
Lemma alert_no_speed (i : stat) (current : Z) (header dir : string) :
  i !! "speed" = None ∨ (∃ speed, i !! "speed" = Some speed ∧ ne_zero speed = false) →
  alert i current header dir = get_alert current None header.
Proof.
  unfold alert, Network.alert. intros [-> | (speed & -> & ->)]; [reflexivity|].
  rewrite andb_false_r. reflexivity.
Qed.

(** The assignment of a decoration changes nothing else. *)
Lemma set_decoration_frame (views views' : views_t) (item key value : string) :
  set_decoration views item key value = Ok views' →
  ∀ it k o, (o ≠ "decoration" ∨ k ≠ key ∨ it ≠ item) →
            view views' it k o = view views it k o.
Proof.
  unfold set_decoration. intros H.
  apply bind_ok_inv in H as (iv & Hiv & H). apply getitem_ok in Hiv.
  apply bind_ok_inv in H as (kv & Hkv & H). apply getitem_ok in Hkv.
  injection H as <-. intros it k o Hne. unfold view.
  destruct (decide (it = item)) as [->|Hit];
    [|rewrite lookup_insert_ne by congruence; reflexivity].
  rewrite lookup_insert_eq, Hiv. simpl.
  destruct (decide (k = key)) as [->|Hk];
    [|rewrite lookup_insert_ne by congruence; reflexivity].
  rewrite lookup_insert_eq, Hkv. simpl.
  apply lookup_insert_ne. destruct Hne as [?|[?|?]]; congruence.
Qed.

Lemma update_views_item_frame (views views' : views_t) (i : stat) :
  update_views_item views i = Ok views' →
  ∀ it k o, (o ≠ "decoration" ∨ (k ≠ "bytes_recv" ∧ k ≠ "bytes_sent")) →
            view views' it k o = view views it k o.
Proof.
  unfold update_views_item, Network.update_views_item. intros H it k o Hne.
  destruct (negb _ || negb _); [injection H as <-; reflexivity|].
  apply bind_ok_inv in H as (rx & _ & H).
  apply bind_ok_inv in H as (tx & _ & H).
  apply bind_ok_inv in H as (nv & _ & H).
  apply bind_ok_inv in H as (name & _ & H).
  apply bind_ok_inv in H as (views1 & H1 & H2).
  rewrite (set_decoration_frame _ _ _ _ _ H2), (set_decoration_frame _ _ _ _ _ H1);
    [reflexivity| |]; destruct Hne as [?|[? ?]]; auto.
Qed.

Lemma update_views_loop_frame (raw : list stat) :
  ∀ views views',
    update_views_loop views raw = Ok views' →
    ∀ it k o, (o ≠ "decoration" ∨ (k ≠ "bytes_recv" ∧ k ≠ "bytes_sent")) →
              view views' it k o = view views it k o.
Proof.
  induction raw as [|i rest IH]; intros views views' H it k o Hne; simpl in H.
  - injection H as <-. reflexivity.
  - apply bind_ok_inv in H as (views1 & H1 & H).
    rewrite (IH _ _ H _ _ _ Hne). eapply update_views_item_frame; eauto.
Qed.

(** Without rates, nothing is decorated. *)
Lemma update_views_loop_unmeasured (raw : list stat) (views : views_t) :
  Forall (fun i => measured i = false) raw → update_views_loop views raw = Ok views.
Proof.
  induction 1 as [|i rest Hi _ IH]; simpl; [reflexivity|].
  rewrite (update_views_item_skip _ _ _ Hi), bind_ok. exact IH.
Qed.

End update_views_more.

(** The text before the first colon of a name whose first part has
    none. *)
Lemma before_colon (a b : string) :
  before ":" a = a → before ":" (a +:+ ":" +:+ b) = a.
Proof.
  induction a as [|c a IH]; [reflexivity|].
  rewrite str_app_cons. simpl.
  destruct (Ascii.eqb c ":"); [discriminate|].
  intros [= H]. rewrite (IH H). reflexivity.
Qed.

(** X10: in [update_views], the speed of the link is used only where the
    thresholds looked up under the name of the interface give "DEFAULT"
    and the speed is there and not zero. In every other case (thresholds
    configured, no [speed] field, a speed of zero) the decoration of an
    interface whose rates are there is the alert looked up under its own
    name, for the received and for the sent bytes. *)
Theorem update_views_own_thresholds (get_alert : Z -> option pyval -> string -> string)
    (self : Network.plugin) (views : gmap string (gmap string (gmap string pyval))) :
  NoDup (Network.interface_names (Network.stats self)) →
  Forall (Network.ready views) (Network.stats self) →
  ∃ views',
    Network.update_views get_alert self views = Ok views'
    ∧ ∀ i name rx tx,
        i ∈ Network.stats self → Network.measured i = true →
        i !! "interface_name" = Some (VStr name) →
        Network.bps i "bytes_recv_rate_per_sec" = Ok rx →
        Network.bps i "bytes_sent_rate_per_sec" = Ok tx →
        (get_alert rx None (before ":" name +:+ "_rx") ≠ "DEFAULT"
         ∨ i !! "speed" = None
         ∨ (∃ speed, i !! "speed" = Some speed ∧ ne_zero speed = false) →
         Network.decoration views' name "bytes_recv"
         = Some (VStr (get_alert rx None (before ":" name +:+ "_rx"))))
        ∧ (get_alert tx None (before ":" name +:+ "_tx") ≠ "DEFAULT"
           ∨ i !! "speed" = None
           ∨ (∃ speed, i !! "speed" = Some speed ∧ ne_zero speed = false) →
           Network.decoration views' name "bytes_sent"
           = Some (VStr (get_alert tx None (before ":" name +:+ "_tx")))).
Proof.
  intros Hnd Hready.
  destruct (update_views_loop_spec get_alert _ views Hnd Hready)
    as (views' & Hloop & _ & _ & Hdeco).
  exists views'. split; [exact Hloop|].
  intros i name rx tx Hin Hm Hname Hrx Htx.
  destruct (Hdeco i name rx tx Hin Hm Hname Hrx Htx) as [Hr Ht].
  split; intros [Hexp|Hno].
  - rewrite Hr, (alert_explicit _ _ _ _ _ Hexp). reflexivity.
  - rewrite Hr, (alert_no_speed _ _ _ _ _ Hno). reflexivity.
  - rewrite Ht, (alert_explicit _ _ _ _ _ Hexp). reflexivity.
  - rewrite Ht, (alert_no_speed _ _ _ _ _ Hno). reflexivity.
Qed.

Lemma update_views_own_thresholds_witness :
  ∃ views',
    Network.update_views Host.get_alert_eth0 (Network.set_stats Host.net [Host.eth0])
      Host.views = Ok views'
    ∧ Network.decoration views' "eth0" "bytes_recv" = Some (VStr "CRITICAL")
    ∧ Network.decoration views' "eth0" "bytes_sent" = Some (VStr "OK").
Proof.
  destruct (update_views_own_thresholds Host.get_alert_eth0
              (Network.set_stats Host.net [Host.eth0]) Host.views)
    as (views' & Hup & H).
  - apply NoDup_singleton.
  - apply Forall_cons. split; [|apply Forall_nil_2].
    intros _. exists "eth0".
    split; [vm_compute; reflexivity|].
    split; [vm_compute; exact I|].
    split; [vm_compute; exact I|].
    exists {[ "bytes_recv" := ∅; "bytes_sent" := ∅ ]}.
    split; [vm_compute; reflexivity|].
    split; exists ∅; vm_compute; reflexivity.
  - exists views'. split; [exact Hup|].
    destruct (H Host.eth0 "eth0" 800000000 4000) as [Hr Ht].
    + apply list_elem_of_singleton. reflexivity.
    + vm_compute. reflexivity.
    + vm_compute. reflexivity.
    + vm_compute. reflexivity.
    + vm_compute. reflexivity.
    + split.
      * apply Hr. left. vm_compute. discriminate.
      * apply Ht. left. vm_compute. discriminate.
Defined.

(** X11: an interface named [a:b] (an address of the interface [a]) is
    decorated with the thresholds of [a]: the alerts are looked up under
    the headers [a_rx] and [a_tx]; and without an alias, [msg_curse] shows
    it under the name [a]. *)
Theorem sub_interface_real_name (get_alert : Z -> option pyval -> string -> string)
    (self : Network.plugin) (views : gmap string (gmap string (gmap string pyval)))
    (i : gmap string pyval) (a b : string) (rx tx : Z) :
  NoDup (Network.interface_names (Network.stats self)) →
  Forall (Network.ready views) (Network.stats self) →
  i ∈ Network.stats self → Network.measured i = true →
  i !! "interface_name" = Some (VStr (a +:+ ":" +:+ b)) →
  before ":" a = a →
  Network.bps i "bytes_recv_rate_per_sec" = Ok rx →
  Network.bps i "bytes_sent_rate_per_sec" = Ok tx →
  (i !! "alias" = Some VNone → Network.if_name i = Ok (VStr a))
  ∧ ∃ views',
      Network.update_views get_alert self views = Ok views'
      ∧ Network.decoration views' (a +:+ ":" +:+ b) "bytes_recv"
        = Some (VStr (Network.alert get_alert i rx (a +:+ "_rx") "rx"))
      ∧ Network.decoration views' (a +:+ ":" +:+ b) "bytes_sent"
        = Some (VStr (Network.alert get_alert i tx (a +:+ "_tx") "tx")).
Proof.
  intros Hnd Hready Hin Hm Hname Ha Hrx Htx. split.
  - intros Halias. unfold Network.if_name.
    rewrite (proj2 (getitem_ok _ _ _) Halias), bind_ok.
    rewrite (proj2 (getitem_ok _ _ _) Hname), bind_ok. simpl as_str.
    rewrite bind_ok, (before_colon _ _ Ha). reflexivity.
  - destruct (update_views_loop_spec get_alert _ views Hnd Hready)
      as (views' & Hloop & _ & _ & Hdeco).
    exists views'. split; [exact Hloop|].
    specialize (Hdeco i _ rx tx Hin Hm Hname Hrx Htx).
    rewrite (before_colon _ _ Ha) in Hdeco. exact Hdeco.
Qed.

Lemma sub_interface_real_name_witness :
  (Host.eth0_1 !! "alias" = Some VNone → Network.if_name Host.eth0_1 = Ok (VStr "eth0"))
  ∧ ∃ views',
      Network.update_views Host.get_alert_eth0 (Network.set_stats Host.net [Host.eth0_1])
        Host.views_1 = Ok views'
      ∧ Network.decoration views' ("eth0" +:+ ":" +:+ "1") "bytes_recv"
        = Some (VStr (Network.alert Host.get_alert_eth0 Host.eth0_1 800000000
                        ("eth0" +:+ "_rx") "rx"))
      ∧ Network.decoration views' ("eth0" +:+ ":" +:+ "1") "bytes_sent"
        = Some (VStr (Network.alert Host.get_alert_eth0 Host.eth0_1 4000
                        ("eth0" +:+ "_tx") "tx")).
Proof.
  apply (sub_interface_real_name Host.get_alert_eth0
           (Network.set_stats Host.net [Host.eth0_1]) Host.views_1
           Host.eth0_1 "eth0" "1" 800000000 4000).
  - apply NoDup_singleton.
  - apply Forall_cons. split; [|apply Forall_nil_2].
    intros _. exists "eth0:1".
    split; [vm_compute; reflexivity|].
    split; [vm_compute; exact I|].
    split; [vm_compute; exact I|].
    exists {[ "bytes_recv" := {[ "hidden" := VBool false ]};
              "bytes_sent" := {[ "hidden" := VBool false ]} ]}.
    split; [vm_compute; reflexivity|].
    split; exists {[ "hidden" := VBool false ]}; vm_compute; reflexivity.
  - apply list_elem_of_singleton. reflexivity.
  - vm_compute. reflexivity.
  - vm_compute. reflexivity.
  - reflexivity.
  - vm_compute. reflexivity.
  - vm_compute. reflexivity.
Defined.

(** X12: [update_views] only ever assigns the ['decoration'] of the views
    of ['bytes_recv'] and ['bytes_sent']: whenever it returns, every other
    option of every view (['hidden'] for one) is as the base class left
    it. *)
Theorem update_views_touches_decorations
    (get_alert : Z -> option pyval -> string -> string)
    (self : Network.plugin) (views views' : gmap string (gmap string (gmap string pyval)))
    (item key opt : string) :
  Network.update_views get_alert self views = Ok views' →
  opt ≠ "decoration" ∨ (key ≠ "bytes_recv" ∧ key ≠ "bytes_sent") →
  Network.view views' item key opt = Network.view views item key opt.
Proof.
  intros H Hne. eapply update_views_loop_frame; eauto.
Qed.

Lemma update_views_touches_decorations_witness :
  match Network.update_views Host.get_alert_eth0
          (Network.set_stats Host.net [Host.eth0_1]) Host.views_1 with
  | Ok views' =>
      Network.view views' "eth0:1" "bytes_recv" "hidden" = Some (VBool false)
      ∧ Network.view views' "eth0:1" "bytes_recv" "decoration" = Some (VStr "CRITICAL")
  | Raise _ => False
  end.
Proof.
  destruct (Network.update_views Host.get_alert_eth0
              (Network.set_stats Host.net [Host.eth0_1]) Host.views_1)
    as [views'|e] eqn:E.
  - split.
    + rewrite (update_views_touches_decorations _ _ _ _ "eth0:1" "bytes_recv" "hidden" E).
      * vm_compute. reflexivity.
      * left. discriminate.
    + vm_compute in E. injection E as <-. vm_compute. reflexivity.
  - vm_compute in E. discriminate E.
Defined.

(** X13: as long as no stat has both rates (the first tick, an interface
    that has just appeared), [update_views] leaves the views as they are
    and does not fail, whatever else the stats and the views hold. *)
Theorem update_views_without_rates (get_alert : Z -> option pyval -> string -> string)
    (self : Network.plugin) (views : gmap string (gmap string (gmap string pyval))) :
  Forall (fun i => Network.measured i = false) (Network.stats self) →
  Network.update_views get_alert self views = Ok views.
Proof. apply update_views_loop_unmeasured. Qed.

Lemma update_views_without_rates_witness :
  Network.update_views Host.get_alert (Network.set_stats Host.net [Host.veth]) ∅ = Ok ∅.
Proof.
  apply (update_views_without_rates Host.get_alert
           (Network.set_stats Host.net [Host.veth]) ∅).
  apply Forall_cons. split; [vm_compute; reflexivity|apply Forall_nil_2].
Defined.

(** ** The rows of msg_curse *)

Lemma str_repeat_length (c : string) (n : nat) :
  String.length (str_repeat c n) = (n * String.length c)%nat.
Proof.
  induction n as [|n IH]; [reflexivity|].
  simpl. rewrite str_length_app, IH. reflexivity.
Qed.

Lemma spaces_length (n : Z) : String.length (spaces n) = Z.to_nat n.
Proof. unfold spaces. rewrite str_repeat_length. simpl. lia. Qed.

(** A name that fits is not cut. *)
Lemma cut_short (name : string) (w : Z) :
  Z.of_nat (String.length name) ≤ w → Network.cut (VStr name) w = Ok name.
Proof.
  intros H. unfold Network.cut, len. rewrite bind_ok.
  destruct (Z.ltb_spec w (Z.of_nat (String.length name))) as [?|_]; [lia|reflexivity].
Qed.

Section rows_more.

Import Network.

Variable get_views : pyval -> string -> string -> result pyval.
Variable auto_unit : Z -> string.

(** The label of a name, cut or padded to the width. *)
Lemma label_cells_width (i : stat) (name : string) (w : Z) :
  2 ≤ w →
  if_name i = Ok (VStr name) →
  ∃ label,
    label_cells w i = Ok [curse_new_line; curse_add_line label None None None; mac_cell i]
    ∧ Z.of_nat (String.length label) = w
    ∧ (Z.of_nat (String.length name) ≤ w →
       label = name +:+ spaces (w - Z.of_nat (String.length name))).
Proof.
  intros Hw Hname.
  destruct (Z.le_gt_cases (Z.of_nat (String.length name)) w) as [Hshort|Hlong].
  - exists (name +:+ spaces (w - Z.of_nat (String.length name))).
    split; [|split; [|reflexivity]].
    + unfold label_cells. rewrite Hname, bind_ok, (cut_short _ _ Hshort), bind_ok.
      unfold format_left. destruct (Z.ltb_spec w 0) as [?|_]; [lia|reflexivity].
    + rewrite str_length_app, spaces_length. lia.
  - destruct (cut_long name w Hw Hlong) as (pre & suf & _ & Hsuf & Hcut).
    assert (Hlen : Z.of_nat (String.length ("_" +:+ suf)) = w).
    { rewrite str_length_app. simpl String.length. lia. }
    exists ("_" +:+ suf). split; [|split; [exact Hlen|lia]].
    unfold label_cells. rewrite Hname, bind_ok, Hcut, bind_ok.
    rewrite (format_left_exact _ _ Hlen). reflexivity.
Qed.

(** Without a rate, and without a counter in the cumulative mode, the
    values are left out. *)
Lemma value_cells_none (args : args_t) (i : stat) :
  has i "bytes_recv_rate_per_sec" = false →
  network_cumul args = false ∨ has i "bytes_recv" = false →
  value_cells get_views auto_unit args i = Ok [].
Proof.
  intros Hr Hc. unfold value_cells, amounts. rewrite Hr.
  destruct Hc as [-> | ->]; [|rewrite andb_false_r]; reflexivity.
Qed.

End rows_more.

(** X14: for a width that leaves [name_max_width] of two or more, the
    label of every interface whose name (or alias) is a string takes
    exactly [name_max_width] characters: a name that fits is followed by
    spaces up to the width, a longer one is cut (see C7); the cells of the
    label are computed without failure. *)
Theorem label_fills_width (i : gmap string pyval) (name : string) (name_max_width : Z) :
  2 ≤ name_max_width →
  Network.if_name i = Ok (VStr name) →
  ∃ label,
    Network.label_cells name_max_width i
    = Ok [curse_new_line; curse_add_line label None None None; Network.mac_cell i]
    ∧ Z.of_nat (String.length label) = name_max_width
    ∧ (Z.of_nat (String.length name) ≤ name_max_width →
       label = name +:+ spaces (name_max_width - Z.of_nat (String.length name))).
Proof. apply label_cells_width. Qed.

Lemma label_fills_width_witness :
  ∃ label,
    Network.label_cells 8 Host.eth0
    = Ok [curse_new_line; curse_add_line label None None None; Network.mac_cell Host.eth0]
    ∧ Z.of_nat (String.length label) = 8
    ∧ (Z.of_nat (String.length "eth0") ≤ 8 →
       label = "eth0" +:+ spaces (8 - Z.of_nat (String.length "eth0"))).
Proof.
  apply (label_fills_width Host.eth0 "eth0" 8); [lia|vm_compute; reflexivity].
Defined.

(** X15: the failures of [msg_curse] before the first row, for stats that
    are not empty, a plugin that is enabled and a width other than zero.
    A width below 12 makes [name_max_width] negative, and the title cannot
    be formatted: [ValueError], whatever the other arguments. From 12 on,
    the default [args=None] raises [AttributeError] where the options are
    read. *)
Theorem msg_curse_early_failures
    (get_views : pyval -> string -> string -> result pyval)
    (sorted_stats : list (gmap string pyval) -> list (gmap string pyval))
    (auto_unit : Z -> string) (self : Network.plugin) (max_width : Z) :
  Network.stats self ≠ [] →
  Network.is_disabled self = false →
  max_width ≠ 0 →
  (max_width < 12 →
   ∀ args, Network.msg_curse get_views sorted_stats auto_unit self args (Some max_width)
           = Raise ValueError)
  ∧ (12 ≤ max_width →
     Network.msg_curse get_views sorted_stats auto_unit self None (Some max_width)
     = Raise AttributeError).
Proof.
  intros Hne Hen Hw. unfold Network.msg_curse.
  destruct (Network.stats self) as [|s0 rest]; [congruence|].
  rewrite Hen. destruct (Z.eqb_spec max_width 0) as [?|_]; [contradiction|].
  unfold format_left. split; intros Hlt.
  - intros args. destruct (Z.ltb_spec (max_width - 12) 0) as [_|?]; [reflexivity|lia].
  - destruct (Z.ltb_spec (max_width - 12) 0) as [?|_]; [lia|reflexivity].
Qed.

Lemma msg_curse_early_failures_witness :
  (11 < 12 →
   ∀ args, Network.msg_curse Host.get_views Host.sorted_stats Host.auto_unit
             (Network.set_stats Host.net [Host.eth0]) args (Some 11)
           = Raise ValueError)
  ∧ (12 ≤ 11 →
     Network.msg_curse Host.get_views Host.sorted_stats Host.auto_unit
       (Network.set_stats Host.net [Host.eth0]) None (Some 11)
     = Raise AttributeError).
Proof.
  apply (msg_curse_early_failures Host.get_views Host.sorted_stats Host.auto_unit
           (Network.set_stats Host.net [Host.eth0]) 11); discriminate || reflexivity.
Defined.

(** X16: an interface that is displayed but has no rate yet (created
    after the last tick), and no counter to show in the cumulative mode,
    still gets its row: the cells of its name and of its MAC address, and
    no value; none of the other fields of its stat is read. *)
Theorem new_interface_row
    (get_views : pyval -> string -> string -> result pyval)
    (auto_unit : Z -> string) (args : Network.args_t) (name_max_width : Z)
    (i : gmap string pyval) :
  Network.is_down i = false →
  Network.all_hidden get_views i Network.hide_zero_fields = Ok false →
  Network.has i "bytes_recv_rate_per_sec" = false →
  Network.network_cumul args = false ∨ Network.has i "bytes_recv" = false →
  Network.interface_cells get_views auto_unit args name_max_width i
  = Network.label_cells name_max_width i.
Proof.
  intros Hup Hhid Hr Hc. unfold Network.interface_cells.
  rewrite Hup, Hhid, bind_ok, (value_cells_none _ _ _ _ Hr Hc).
  destruct (Network.label_cells name_max_width i) as [label|e]; [|reflexivity].
  rewrite !bind_ok, app_nil_r. reflexivity.
Qed.

Lemma new_interface_row_witness :
  Network.interface_cells Host.get_views Host.auto_unit Host.args 8 Host.veth
  = Ok [ curse_new_line;
         curse_add_line "veth12  " None None None;
         curse_add_line " MAC: 02:42:ac:11:00:02" None None None ].
Proof.
  rewrite (new_interface_row Host.get_views Host.auto_unit Host.args 8 Host.veth).
  - vm_compute. reflexivity.
  - vm_compute. reflexivity.
  - vm_compute. reflexivity.
  - vm_compute. reflexivity.
  - left. reflexivity.
Defined.

(** X17: every stat that [update_local] builds can be labelled by
    [msg_curse]: whatever psutil and the filter gave, its alias being
    [None] or a string, the cells of its label are computed without
    failure for a [name_max_width] of two or more; the label takes exactly
    that width, and the cell of the MAC address shows the address that the
    library found, or "Unknown" when it found none. *)
Theorem update_local_stat_labelled
    (filter_stats : gmap string pyval -> gmap string pyval)
    (get_mac_address has_alias : string -> pyval)
    (name : string) (counters status i : gmap string pyval) (name_max_width : Z) :
  Network.interface_stat filter_stats get_mac_address has_alias name counters status = Ok i →
  has_alias name = VNone ∨ (∃ a, has_alias name = VStr a) →
  2 ≤ name_max_width →
  ∃ label,
    Network.label_cells name_max_width i
    = Ok [ curse_new_line;
           curse_add_line label None None None;
           curse_add_line
             (" MAC: " +:+ str (if truthy (get_mac_address name)
                                then get_mac_address name else VStr "Unknown"))
             None None None ]
    ∧ Z.of_nat (String.length label) = name_max_width.
Proof.
  intros Hi Halias Hw.
  apply interface_stat_identity in Hi as (Hname & _ & Ha & Hmac).
  assert (Hif : ∃ shown, Network.if_name i = Ok (VStr shown)).
  { unfold Network.if_name. rewrite (proj2 (getitem_ok _ _ _) Ha), bind_ok.
    destruct Halias as [-> | [a ->]]; [|eauto].
    rewrite (proj2 (getitem_ok _ _ _) Hname), bind_ok. simpl as_str.
    rewrite bind_ok. eauto. }
  destruct Hif as [shown Hif].
  destruct (label_cells_width i shown name_max_width Hw Hif) as (label & Hl & Hlen & _).
  exists label. split; [|exact Hlen].
  rewrite Hl. unfold Network.mac_cell. rewrite Hmac. reflexivity.
Qed.

Lemma update_local_stat_labelled_witness :
  match Network.interface_stat Host.filter_stats Host.no_mac_address Host.has_alias
          "eth0" Host.eth0_counters Host.eth0_status with
  | Ok i =>
      ∃ label,
        Network.label_cells 8 i
        = Ok [ curse_new_line;
               curse_add_line label None None None;
               curse_add_line
                 (" MAC: " +:+ str (if truthy (Host.no_mac_address "eth0")
                                    then Host.no_mac_address "eth0" else VStr "Unknown"))
                 None None None ]
        ∧ Z.of_nat (String.length label) = 8
  | Raise _ => False
  end.
Proof.
  destruct (Network.interface_stat Host.filter_stats Host.no_mac_address Host.has_alias
              "eth0" Host.eth0_counters Host.eth0_status) as [i|e] eqn:E.
  - apply (update_local_stat_labelled _ _ _ _ _ _ _ 8 E); [left; reflexivity|lia].
  - vm_compute in E. discriminate E.
Defined.

(** X18: a link speed of zero, as psutil gives it on some systems, is
    still zero in the stat that [update_local] builds, and a stat with
    that speed is never decorated against a maximum: its alert is the one
    looked up under the given header, whatever that lookup returns. *)
Theorem zero_speed_no_maximum
    (filter_stats : gmap string pyval -> gmap string pyval)
    (get_mac_address has_alias : string -> pyval)
    (get_alert : Z -> option pyval -> string -> string)
    (name : string) (counters status i : gmap string pyval) :
  Network.interface_stat filter_stats get_mac_address has_alias name counters status = Ok i →
  Network.filtered filter_stats counters status !! "speed" = Some (VInt 0) →
  i !! "speed" = Some (VInt 0)
  ∧ ∀ (j : gmap string pyval) current header dir,
      j !! "speed" = i !! "speed" →
      Network.alert get_alert j current header dir = get_alert current None header.
Proof.
  intros H Hspeed.
  apply interface_stat_fields in H
    as (sent & recv & all & speed & bps & _ & _ & Hsp & _ & Hmul & _ & _ & _ & Hi).
  rewrite Hspeed in Hsp. injection Hsp as <-.
  simpl in Hmul. injection Hmul as <-.
  split; [exact Hi|].
  intros j current header dir Hj. apply alert_no_speed.
  right. exists (VInt 0). rewrite Hj, Hi. split; reflexivity.
Qed.

Lemma zero_speed_no_maximum_witness :
  match Network.interface_stat Host.filter_stats Host.get_mac_address Host.has_alias
          "lo" Host.eth0_counters {[ "speed" := VInt 0 ]} with
  | Ok i =>
      i !! "speed" = Some (VInt 0)
      ∧ ∀ (j : gmap string pyval) current header dir,
          j !! "speed" = i !! "speed" →
          Network.alert Host.get_alert j current header dir
          = Host.get_alert current None header
  | Raise _ => False
  end.
Proof.
  destruct (Network.interface_stat Host.filter_stats Host.get_mac_address Host.has_alias
              "lo" Host.eth0_counters {[ "speed" := VInt 0 ]}) as [i|e] eqn:E.
  - apply (zero_speed_no_maximum _ _ _ Host.get_alert _ _ _ _ E). vm_compute. reflexivity.
  - vm_compute in E. discriminate E.
Defined.

Section hidden_more.

Import Network.

Variable get_views : pyval -> string -> string -> result pyval.
Variable auto_unit : Z -> string.

(** Interfaces that are all down add nothing to the message. *)
Lemma interfaces_cells_all_down (args : args_t) (w : Z) (l : list stat) :
  Forall (fun i : stat => is_down i = true) l →
  interfaces_cells get_views auto_unit args w l = Ok [].
Proof.
  induction 1 as [|i rest Hi _ IH]; simpl; [reflexivity|].
  unfold interface_cells. rewrite Hi, bind_ok, IH. reflexivity.
Qed.

End hidden_more.

(** X19: an interface that is up is hidden by [msg_curse] only if the
    views of both of its rates are hidden. If the view of the received
    rate is not hidden, the interface is displayed and the view of the
    sent rate is not even read; if it is hidden, the view of the sent rate
    decides, and an interface with both hidden adds no cell. *)
Theorem hidden_needs_both_rates
    (get_views : pyval -> string -> string -> result pyval)
    (auto_unit : Z -> string) (i : gmap string pyval) (item recv : pyval) :
  Network.is_down i = false →
  i !! "interface_name" = Some item →
  get_views item "bytes_recv_rate_per_sec" "hidden" = Ok recv →
  (truthy recv = false →
   Network.all_hidden get_views i Network.hide_zero_fields = Ok false)
  ∧ (truthy recv = true →
     ∀ sent, get_views item "bytes_sent_rate_per_sec" "hidden" = Ok sent →
       Network.all_hidden get_views i Network.hide_zero_fields = Ok (truthy sent)
       ∧ (truthy sent = true →
          ∀ args w, Network.interface_cells get_views auto_unit args w i = Ok [])).
Proof.
  intros Hup Hitem Hrecv.
  unfold Network.all_hidden, Network.hide_zero_fields, Network.get_key.
  rewrite (proj2 (getitem_ok _ _ _) Hitem), !bind_ok, Hrecv, bind_ok.
  split; intros Ht; rewrite Ht; [reflexivity|].
  intros sent Hsent. rewrite Hsent, bind_ok.
  assert (Hall : (if truthy sent then Ok true else Ok false) = Ok (truthy sent) :> result bool)
    by (destruct (truthy sent); reflexivity).
  split; [exact Hall|].
  intros Hs args w. unfold Network.interface_cells. rewrite Hup.
  unfold Network.all_hidden, Network.hide_zero_fields, Network.get_key.
  rewrite (proj2 (getitem_ok _ _ _) Hitem), !bind_ok, Hrecv, bind_ok, Ht.
  rewrite Hsent, bind_ok, Hs. reflexivity.
Qed.

Lemma hidden_needs_both_rates_witness :
  (truthy (VBool false) = false →
   Network.all_hidden Host.get_views Host.eth0 Network.hide_zero_fields = Ok false)
  ∧ (truthy (VBool false) = true →
     ∀ sent, Host.get_views (VStr "eth0") "bytes_sent_rate_per_sec" "hidden" = Ok sent →
       Network.all_hidden Host.get_views Host.eth0 Network.hide_zero_fields
       = Ok (truthy sent)
       ∧ (truthy sent = true →
          ∀ args w,
            Network.interface_cells Host.get_views Host.auto_unit args w Host.eth0 = Ok [])).
Proof.
  apply (hidden_needs_both_rates Host.get_views Host.auto_unit Host.eth0 (VStr "eth0")
           (VBool false)); vm_compute; reflexivity.
Defined.

(** X20: when every interface of the sorted list is down, [msg_curse]
    (stats not empty, plugin enabled, a width of 12 or more, the options
    given) still returns the title and the header of the columns, and
    nothing else. *)
Theorem all_down_header_only
    (get_views : pyval -> string -> string -> result pyval)
    (sorted_stats : list (gmap string pyval) -> list (gmap string pyval))
    (auto_unit : Z -> string) (self : Network.plugin) (args : Network.args_t)
    (max_width : Z) :
  Network.stats self ≠ [] →
  Network.is_disabled self = false →
  12 ≤ max_width →
  Forall (fun i : gmap string pyval => Network.is_down i = true)
    (sorted_stats (Network.stats self)) →
  Network.msg_curse get_views sorted_stats auto_unit self (Some args) (Some max_width)
  = Ok (curse_add_line ("NETWORK" +:+ spaces (max_width - 12 - 7))
          (Some (VStr "TITLE")) None None
        :: Network.header_cells args).
Proof.
  intros Hne Hen Hw Hdown. unfold Network.msg_curse.
  destruct (Network.stats self) as [|s0 rest] eqn:Hst; [congruence|].
  rewrite Hen. destruct (Z.eqb_spec max_width 0) as [?|_]; [lia|].
  unfold format_left. destruct (Z.ltb_spec (max_width - 12) 0) as [?|_]; [lia|].
  rewrite !bind_ok, (interfaces_cells_all_down _ _ _ _ _ Hdown), bind_ok, app_nil_r.
  reflexivity.
Qed.

Lemma all_down_header_only_witness :
  Network.msg_curse Host.get_views Host.sorted_stats Host.auto_unit
    (Network.set_stats Host.net [Host.tun0]) (Some Host.args) (Some 20)
  = Ok (curse_add_line ("NETWORK" +:+ spaces (20 - 12 - 7))
          (Some (VStr "TITLE")) None None
        :: Network.header_cells Host.args).
Proof.
  apply (all_down_header_only Host.get_views Host.sorted_stats Host.auto_unit
           (Network.set_stats Host.net [Host.tun0]) Host.args 20).
  - discriminate.
  - reflexivity.
  - lia.
  - apply Forall_cons. split; [vm_compute; reflexivity|apply Forall_nil_2].
Defined.
